(** * Pomodoro timer (pomodoro.js): a shallow embedding and its properties

    The script keeps one global [state] object, reads four numeric input
    fields of the page, and is driven by button clicks, key presses, field
    [change] events and [requestAnimationFrame] callbacks.  The embedding
    below threads an explicit [World] (timer state, the page elements the
    script touches, and the queue of requested animation frames) through
    every function of the script.

    Numbers.  A JavaScript number is an IEEE-754 double.  It is modelled by
    [num]: an exact rational, the two infinities, or NaN.  Arithmetic is
    exact (neither the rounding of doubles nor their overflow is modelled)
    and the sign of zero is not tracked: the script never divides by a
    zero it computed, and [String] prints both zeros alike.  A double
    holds every whole number up to [2^53] and computes sums, products and
    remainders of such numbers without error while the result stays in
    that range.  The properties below that give the value of a computed
    number are therefore stated for whole numbers in that range, or name
    the result through the operation that computes it ([mul], [div],
    [sub], [rem]), or bound it with a tolerance.

    Strings.  The [value] of an input element is a string.  [Number] reads
    it by the StringToNumber grammar and [ToString] prints a number as
    [String] does; a whole number below [10^21] prints all its digits,
    any other value at most 17 significant ones.

    Environment.  Clock readings ([performance.now()], the timestamp of a
    frame) are finite and come from outside; they are arguments of the
    functions that read them. *)

From Stdlib Require Import ZArith QArith Qround Qabs Qcanon List String Ascii
  Bool Lia Lqa.
Import ListNotations.

Local Open Scope Z_scope.

(** ** JavaScript numbers *)

Module JS.

Inductive num : Type :=
| NaN
| NInf
| Fin (q : Q)
| PInf.

Definition of_Z (z : Z) : num := Fin (inject_Z z).

(** Sign of a number: [Some Lt], [Some Eq], [Some Gt], or [None] for NaN. *)
Definition sgn (x : num) : option comparison :=
  match x with
  | NaN => None
  | NInf => Some Lt
  | Fin q => Some (q ?= 0)%Q
  | PInf => Some Gt
  end.

(** ToBoolean on a number: NaN and zero are falsy. *)
Definition truthy (x : num) : bool :=
  match x with
  | NaN => false
  | Fin q => negb (Qeq_bool q 0)
  | _ => true
  end.

(** [x || d] where [x] is a number. *)
Definition or_else (x d : num) : num := if truthy x then x else d.

Definition neg (x : num) : num :=
  match x with
  | NaN => NaN
  | NInf => PInf
  | Fin q => Fin (- q)
  | PInf => NInf
  end.

Definition add (x y : num) : num :=
  match x, y with
  | NaN, _ | _, NaN => NaN
  | PInf, NInf | NInf, PInf => NaN
  | PInf, _ | _, PInf => PInf
  | NInf, _ | _, NInf => NInf
  | Fin a, Fin b => Fin (a + b)
  end.

Definition sub (x y : num) : num := add x (neg y).

Definition signed_inf (c : comparison) : num :=
  match c with
  | Lt => NInf
  | Eq => NaN
  | Gt => PInf
  end.

Definition mul (x y : num) : num :=
  match x, y with
  | Fin a, Fin b => Fin (a * b)
  | _, _ =>
      match sgn x, sgn y with
      | Some cx, Some cy =>
          match cx, cy with
          | Eq, _ | _, Eq => NaN
          | Lt, Lt | Gt, Gt => PInf
          | _, _ => NInf
          end
      | _, _ => NaN
      end
  end.

(** Division.  A zero divisor is taken as [+0]. *)
Definition div (x y : num) : num :=
  match x, y with
  | NaN, _ | _, NaN => NaN
  | Fin a, Fin b =>
      if Qeq_bool b 0 then signed_inf (a ?= 0)%Q else Fin (a / b)
  | Fin _, _ => Fin 0
  | _, Fin b =>
      match x, (b ?= 0)%Q with
      | PInf, Lt => NInf
      | PInf, _ => PInf
      | _, Lt => PInf
      | _, _ => NInf
      end
  | _, _ => NaN
  end.

(** The order on numbers; every comparison with NaN is false. *)
Definition leb (x y : num) : bool :=
  match x, y with
  | NaN, _ | _, NaN => false
  | NInf, _ => true
  | _, PInf => true
  | Fin a, Fin b => Qle_bool a b
  | _, _ => false
  end.

Definition geb (x y : num) : bool := leb y x.

Definition ltb (x y : num) : bool :=
  match x, y with
  | NaN, _ | _, NaN => false
  | _, _ => negb (leb y x)
  end.

Definition gtb (x y : num) : bool := ltb y x.

(** Strict equality [===] on numbers. *)
Definition eqb (x y : num) : bool :=
  match x, y with
  | NInf, NInf | PInf, PInf => true
  | Fin a, Fin b => Qeq_bool a b
  | _, _ => false
  end.

(** [Math.max] and [Math.min] of two arguments. *)
Definition max (x y : num) : num :=
  match x, y with
  | NaN, _ | _, NaN => NaN
  | _, _ => if leb x y then y else x
  end.

Definition min (x y : num) : num :=
  match x, y with
  | NaN, _ | _, NaN => NaN
  | _, _ => if leb x y then x else y
  end.

Definition floor (x : num) : num :=
  match x with
  | Fin q => of_Z (Qfloor q)
  | _ => x
  end.

(** [Math.round]: nearest integer, ties towards [+Infinity]. *)
Definition round (x : num) : num :=
  match x with
  | Fin q => of_Z (Qfloor (q + (1 # 2)))
  | _ => x
  end.

(** Integer part towards zero. *)
Definition Qtrunc (q : Q) : Z :=
  if Qle_bool 0 q then Qfloor q else Qceiling q.

(** The remainder operator [%]: the result has the sign of the dividend. *)
Definition rem (x y : num) : num :=
  match x, y with
  | Fin a, Fin b =>
      if Qeq_bool b 0 then NaN else Fin (a - b * inject_Z (Qtrunc (a / b)))
  | Fin a, PInf | Fin a, NInf => Fin a
  | _, _ => NaN
  end.

(** Propositional order and equality, for statements. *)
Definition le (x y : num) : Prop := leb x y = true.
Definition equiv (x y : num) : Prop := eqb x y = true.

(** [|x - y| <= d]. *)
Definition within (d : Q) (x y : num) : bool :=
  leb (sub x y) (Fin d) && leb (sub y x) (Fin d).

End JS.

(** ** Conversions between strings and numbers *)

Module Conv.
Import JS.

Local Open Scope char_scope.
Local Open Scope Z_scope.

Definition code (c : ascii) : Z := Z.of_N (N_of_ascii c).

(** StrWhiteSpaceChar, restricted to the one-byte characters. *)
Definition is_ws (c : ascii) : bool :=
  let n := code c in ((9 <=? n) && (n <=? 13)) || (n =? 32).

Definition digit_val (c : ascii) : option Z :=
  let n := code c in
  if (48 <=? n) && (n <=? 57) then Some (n - 48) else None.

Definition is_digit (c : ascii) : bool :=
  match digit_val c with
  | Some _ => true
  | None => false
  end.

(** The value of a character known to be a digit. *)
Definition digitValue (c : ascii) : Z := code c - 48.

Definition hex_val (c : ascii) : option Z :=
  let n := code c in
  if (48 <=? n) && (n <=? 57) then Some (n - 48)
  else if (97 <=? n) && (n <=? 102) then Some (n - 87)
  else if (65 <=? n) && (n <=? 70) then Some (n - 55)
  else None.

Definition below (base : Z) (val : ascii -> option Z) (c : ascii) : option Z :=
  match val c with
  | Some d => if d <? base then Some d else None
  | None => None
  end.

Fixpoint drop_ws (l : list ascii) : list ascii :=
  match l with
  | c :: r => if is_ws c then drop_ws r else l
  | [] => []
  end.

Definition trim (l : list ascii) : list ascii :=
  rev (drop_ws (rev (drop_ws l))).

(** The longest prefix of digits, as digit values, and what follows it. *)
Fixpoint span_digits (val : ascii -> option Z) (l : list ascii)
  : list Z * list ascii :=
  match l with
  | c :: r =>
      match val c with
      | Some d => let (ds, rest) := span_digits val r in (d :: ds, rest)
      | None => ([], l)
      end
  | [] => ([], [])
  end.

Definition digits_value (base : Z) (ds : list Z) : Z :=
  fold_left (fun acc d => acc * base + d) ds 0.

(** ExponentPart_opt, which must reach the end of the text. *)
Definition parse_exponent (l : list ascii) : option Z :=
  match l with
  | [] => Some 0
  | c :: r =>
      if Ascii.eqb c "e" || Ascii.eqb c "E" then
        let (sg, r') :=
          match r with
          | "+" :: t => (1, t)
          | "-" :: t => (-1, t)
          | _ => (1, r)
          end in
        match span_digits digit_val r' with
        | ((_ :: _) as ds, []) => Some (sg * digits_value 10 ds)
        | _ => None
        end
      else None
  end.

Definition infinity_text : list ascii :=
  list_ascii_of_string "Infinity".

Definition list_eqb (a b : list ascii) : bool :=
  String.eqb (string_of_list_ascii a) (string_of_list_ascii b).

(** StrUnsignedDecimalLiteral. *)
Definition parse_unsigned (l : list ascii) : num :=
  if list_eqb l infinity_text then PInf
  else
    let (di, r1) := span_digits digit_val l in
    let (df, r2) :=
      match r1 with
      | "." :: t => span_digits digit_val t
      | _ => ([], r1)
      end in
    match di ++ df with
    | [] => NaN
    | ds =>
        match parse_exponent r2 with
        | Some e =>
            Fin (Qred (inject_Z (digits_value 10 ds)
                       * Qpower 10 (e - Z.of_nat (List.length df))))
        | None => NaN
        end
    end.

(** NonDecimalIntegerLiteral: [0x], [0o], [0b] and their capitals. *)
Definition parse_radix (base : Z) (l : list ascii) : num :=
  match span_digits (below base hex_val) l with
  | ((_ :: _) as ds, []) => of_Z (digits_value base ds)
  | _ => NaN
  end.

Definition parse_numeric (l : list ascii) : num :=
  match l with
  | [] => of_Z 0
  | "+" :: r => parse_unsigned r
  | "-" :: r => neg (parse_unsigned r)
  | "0" :: p :: r =>
      if Ascii.eqb p "x" || Ascii.eqb p "X" then parse_radix 16 r
      else if Ascii.eqb p "o" || Ascii.eqb p "O" then parse_radix 8 r
      else if Ascii.eqb p "b" || Ascii.eqb p "B" then parse_radix 2 r
      else parse_unsigned l
  | _ => parse_unsigned l
  end.

(** [Number(s)] for a string [s] (StringToNumber). *)
Definition Number (s : string) : num :=
  parse_numeric (trim (list_ascii_of_string s)).

Definition digit_char (d : Z) : ascii :=
  ascii_of_N (Z.to_N (48 + d mod 10)).

(** Decimal digits of a non-negative integer, most significant first. *)
Fixpoint dec_digits (fuel : nat) (n : Z) (acc : list ascii) : list ascii :=
  let acc' := digit_char n :: acc in
  match fuel with
  | O => acc'
  | S f => if n <? 10 then acc' else dec_digits f (n / 10) acc'
  end.

Definition dec_list (n : Z) : list ascii :=
  dec_digits (Z.to_nat (Z.log2 n)) n [].

Definition dec (n : Z) : string := string_of_list_ascii (dec_list n).

(** Number of leading zeros after the decimal point of [0 < q < 1], plus
    one: the least [j >= 1] with [1 <= q * 10^j]. *)
Fixpoint lead (fuel : nat) (q : Q) (j : Z) : Z :=
  match fuel with
  | O => j
  | S f => if Qle_bool 1 (q * 10) then j else lead f (q * 10) (j + 1)
  end.

(** Decimal exponent [n] of [q > 0]: [10^(n-1) <= q < 10^n]. *)
Definition magnitude (q : Q) : Z :=
  if Qle_bool 1 q then Z.of_nat (List.length (dec_list (Qfloor q)))
  else 1 - lead (S (Z.to_nat (Z.log2 (Zpos (Qden q))))) q 1.

Fixpoint strip_zeros (rev_digits : list ascii) : list ascii :=
  match rev_digits with
  | "0" :: r => strip_zeros r
  | _ => rev_digits
  end.

Definition zeros (n : Z) : list ascii := repeat "0" (Z.to_nat n).

(** Number::toString for a positive value that is not an integer below
    [10^21]: at most 17 significant digits, laid out as the language
    prescribes (plain, with a fraction, or with an exponent). *)
Definition general_list (q : Q) : list ascii :=
  let n0 := magnitude q in
  let s17 := Qfloor (q * Qpower 10 (17 - n0) + (1 # 2)) in
  let all := dec_list s17 in
  let n := n0 + (Z.of_nat (List.length all) - 17) in
  let ds := rev (strip_zeros (rev all)) in
  let k := Z.of_nat (List.length ds) in
  if (k <=? n) && (n <=? 21) then ds ++ zeros (n - k)
  else if (0 <? n) && (n <=? 21) then
    firstn (Z.to_nat n) ds ++ "." :: skipn (Z.to_nat n) ds
  else if (-6 <? n) && (n <=? 0) then
    "0" :: "." :: zeros (- n) ++ ds
  else
    let e := n - 1 in
    let mant :=
      match ds with
      | d :: ((_ :: _) as r) => d :: "." :: r
      | _ => ds
      end in
    mant ++ "e" :: (if e <? 0 then "-" else "+") :: dec_list (Z.abs e).

Definition is_integer (q : Q) : bool := Qeq_bool q (inject_Z (Qfloor q)).

Definition pos_list (q : Q) : list ascii :=
  if is_integer q && (Qfloor q <? 10 ^ 21) then dec_list (Qfloor q)
  else general_list q.

(** [String(x)] for a number [x]. *)
Definition ToString (x : num) : string :=
  match x with
  | NaN => "NaN"%string
  | PInf => "Infinity"%string
  | NInf => "-Infinity"%string
  | Fin q =>
      match (q ?= 0)%Q with
      | Eq => "0"%string
      | Gt => string_of_list_ascii (pos_list q)
      | Lt => string_of_list_ascii ("-" :: pos_list (- q))
      end
  end.

(** [s.padStart(2, "0")]. *)
Definition padStart2 (s : string) : string :=
  match s with
  | EmptyString => "00"%string
  | String c EmptyString => String "0" s
  | _ => s
  end.

End Conv.

(** ** The timer *)

Module Pomodoro.
Import JS Conv.

Local Open Scope string_scope.

(** [PHASES]: the three phase constants and the text each one stands for. *)
Inductive Phase : Type := FOCUS | SHORT | LONG.

Definition PHASES (p : Phase) : string :=
  match p with
  | FOCUS => "FOCUS"
  | SHORT => "SHORT BREAK"
  | LONG => "LONG BREAK"
  end.

Definition RADIUS : num := of_Z 120.

(** [Math.PI], the double nearest to pi, as the rational it is. *)
Definition PI : num := Fin (884279719003555 # 281474976710656).

Definition CIRCUMFERENCE : num := mul (mul (of_Z 2) PI) RADIUS.

Definition LIMIT : num := of_Z 9000.

(** The global [state] object.  [cycleCount] only ever receives [0] and
    [+= 1], so it is an integer; [startTime] and [animationFrame] start as
    [null], which is [None]. *)
Record State : Type := mkState {
  isRunning : bool;
  phase : Phase;
  cycleCount : Z;
  startTime : option num;
  duration : num;
  elapsed : num;
  animationFrame : option nat
}.

(** What the script reads and writes of the page elements in [ui]: the
    ring's [style.strokeDashoffset] (kept as the number assigned to it),
    the [textContent] of the label, the timer and the toggle button, and
    the [value] of the four inputs. *)
Record UI : Type := mkUI {
  strokeDashoffset : num;
  label : string;
  timer : string;
  btnToggle : string;
  inputFocus : string;
  inputShort : string;
  inputLong : string;
  inputCycles : string
}.

(** The world: the state, the page, the animation-frame requests that are
    still pending (by handle, oldest first), and the last handle handed
    out. *)
Record World : Type := mkWorld {
  state : State;
  ui : UI;
  pending : list nat;
  lastHandle : nat
}.

Definition with_state (f : State -> State) (w : World) : World :=
  mkWorld (f (state w)) (ui w) (pending w) (lastHandle w).

Definition with_ui (f : UI -> UI) (w : World) : World :=
  mkWorld (state w) (f (ui w)) (pending w) (lastHandle w).

Definition set_isRunning (b : bool) (s : State) : State :=
  mkState b (phase s) (cycleCount s) (startTime s) (duration s) (elapsed s)
    (animationFrame s).
Definition set_phase (p : Phase) (s : State) : State :=
  mkState (isRunning s) p (cycleCount s) (startTime s) (duration s)
    (elapsed s) (animationFrame s).
Definition set_cycleCount (c : Z) (s : State) : State :=
  mkState (isRunning s) (phase s) c (startTime s) (duration s) (elapsed s)
    (animationFrame s).
Definition set_startTime (t : option num) (s : State) : State :=
  mkState (isRunning s) (phase s) (cycleCount s) t (duration s) (elapsed s)
    (animationFrame s).
Definition set_duration (d : num) (s : State) : State :=
  mkState (isRunning s) (phase s) (cycleCount s) (startTime s) d (elapsed s)
    (animationFrame s).
Definition set_elapsed (e : num) (s : State) : State :=
  mkState (isRunning s) (phase s) (cycleCount s) (startTime s) (duration s) e
    (animationFrame s).
Definition set_animationFrame (h : option nat) (s : State) : State :=
  mkState (isRunning s) (phase s) (cycleCount s) (startTime s) (duration s)
    (elapsed s) h.

Definition set_strokeDashoffset (x : num) (u : UI) : UI :=
  mkUI x (label u) (timer u) (btnToggle u) (inputFocus u) (inputShort u)
    (inputLong u) (inputCycles u).
Definition set_label (t : string) (u : UI) : UI :=
  mkUI (strokeDashoffset u) t (timer u) (btnToggle u) (inputFocus u)
    (inputShort u) (inputLong u) (inputCycles u).
Definition set_timer (t : string) (u : UI) : UI :=
  mkUI (strokeDashoffset u) (label u) t (btnToggle u) (inputFocus u)
    (inputShort u) (inputLong u) (inputCycles u).
Definition set_btnToggle (t : string) (u : UI) : UI :=
  mkUI (strokeDashoffset u) (label u) (timer u) t (inputFocus u)
    (inputShort u) (inputLong u) (inputCycles u).
Definition set_inputFocus (t : string) (u : UI) : UI :=
  mkUI (strokeDashoffset u) (label u) (timer u) (btnToggle u) t
    (inputShort u) (inputLong u) (inputCycles u).
Definition set_inputShort (t : string) (u : UI) : UI :=
  mkUI (strokeDashoffset u) (label u) (timer u) (btnToggle u) (inputFocus u)
    t (inputLong u) (inputCycles u).
Definition set_inputLong (t : string) (u : UI) : UI :=
  mkUI (strokeDashoffset u) (label u) (timer u) (btnToggle u) (inputFocus u)
    (inputShort u) t (inputCycles u).
Definition set_inputCycles (t : string) (u : UI) : UI :=
  mkUI (strokeDashoffset u) (label u) (timer u) (btnToggle u) (inputFocus u)
    (inputShort u) (inputLong u) t.

(** [requestAnimationFrame(loop)]: a fresh handle joins the pending
    requests and is stored in [state.animationFrame] by every caller. *)
Definition requestAnimationFrame (w : World) : World :=
  let h := S (lastHandle w) in
  mkWorld (set_animationFrame (Some h) (state w)) (ui w)
    (pending w ++ [h]) h.

(** [cancelAnimationFrame(state.animationFrame)]; [null] cancels nothing. *)
Definition cancelAnimationFrame (w : World) : World :=
  match animationFrame (state w) with
  | Some h =>
      mkWorld (state w) (ui w)
        (filter (fun k => negb (Nat.eqb k h)) (pending w)) (lastHandle w)
  | None => w
  end.

(** *** Helper functions *)

Definition clamp (v lo hi : num) : num := max lo (min hi v).

(** The locals [s], [mm] and [ss] of [formatMMSS], by name. *)
Definition wholeSeconds (totalSeconds : num) : num :=
  max (of_Z 0) (floor totalSeconds).

Definition minutesText (totalSeconds : num) : string :=
  let s := wholeSeconds totalSeconds in
  let m := floor (div s (of_Z 60)) in
  padStart2 (ToString m).

Definition secondsText (totalSeconds : num) : string :=
  let s := wholeSeconds totalSeconds in
  let r := rem s (of_Z 60) in
  padStart2 (ToString r).

Definition formatMMSS (totalSeconds : num) : string :=
  let mm := minutesText totalSeconds in
  let ss := secondsText totalSeconds in
  mm ++ ":" ++ ss.

Definition render (w : World) : World :=
  let remaining :=
    max (of_Z 0) (sub (duration (state w)) (elapsed (state w))) in
  let w := with_ui (set_timer (formatMMSS remaining)) w in
  let progress :=
    if gtb (duration (state w)) (of_Z 0)
    then div (elapsed (state w)) (duration (state w))
    else of_Z 0 in
  let offset := sub CIRCUMFERENCE (mul progress CIRCUMFERENCE) in
  with_ui (set_strokeDashoffset offset) w.

(** The minutes [setPhase] reads for a phase: [Number(field.value) || d]. *)
Definition minutesFor (p : Phase) (u : UI) : num :=
  match p with
  | FOCUS => or_else (Number (inputFocus u)) (of_Z 25)
  | SHORT => or_else (Number (inputShort u)) (of_Z 5)
  | LONG => or_else (Number (inputLong u)) (of_Z 15)
  end.

(** [setPhase(newPhase, fromTransition)]; [now] is what
    [performance.now()] returns. *)
Definition setPhase (newPhase : Phase) (fromTransition : bool) (now : Q)
    (w : World) : World :=
  let w := with_state (set_phase newPhase) w in
  let w := with_state (set_elapsed (of_Z 0)) w in
  let w := with_state (set_startTime (Some (Fin now))) w in
  let minutes := minutesFor newPhase (ui w) in
  let w := with_state (set_duration (mul minutes (of_Z 60))) w in
  let w := with_ui (set_label (PHASES newPhase)) w in
  if negb fromTransition then
    render (with_ui (set_timer (formatMMSS (duration (state w)))) w)
  else w.

Definition cyclesBeforeLong (u : UI) : num :=
  or_else (Number (inputCycles u)) (of_Z 4).

Definition nextPhase (now : Q) (w : World) : World :=
  match phase (state w) with
  | FOCUS =>
      let w := with_state (set_cycleCount (cycleCount (state w) + 1)) w in
      if eqb (rem (of_Z (cycleCount (state w))) (cyclesBeforeLong (ui w)))
           (of_Z 0)
      then setPhase LONG true now w
      else setPhase SHORT true now w
  | _ => setPhase FOCUS true now w
  end.

(** [!state.startTime]: [null], zero and NaN are falsy. *)
Definition unset (t : option num) : bool :=
  match t with
  | None => true
  | Some x => negb (truthy x)
  end.

(** What a number-valued expression reads from [state.startTime]. *)
Definition timeValue (t : option num) : num :=
  match t with
  | None => of_Z 0
  | Some x => x
  end.

(** The part of [loop] that runs when the phase is over: the clamp, the
    redraw at full progress, the transition, and the new reference
    point. *)
Definition clampToDuration (w : World) : World :=
  with_state (set_elapsed (duration (state w))) w.

Definition completePhase (now1 now2 : Q) (w : World) : World :=
  let w := clampToDuration w in
  let w := render w in
  let w := nextPhase now1 w in
  with_state (set_startTime (Some (Fin now2))) w.

(** The first part of [loop]: the reference point is adopted if there is
    none, and the elapsed seconds are computed from it. *)
Definition measure (timestamp : Q) (w : World) : World :=
  let w :=
    if unset (startTime (state w))
    then with_state (set_startTime (Some (Fin timestamp))) w
    else w in
  let deltaMs := sub (Fin timestamp) (timeValue (startTime (state w))) in
  with_state (set_elapsed (div deltaMs (of_Z 1000))) w.

(** [loop(timestamp)], the animation-frame callback; [now1] and [now2] are
    the two readings of [performance.now()] a phase change makes. *)
Definition loop (timestamp now1 now2 : Q) (w : World) : World :=
  if negb (isRunning (state w)) then w
  else
    let w := measure timestamp w in
    let w :=
      if geb (elapsed (state w)) (duration (state w))
      then completePhase now1 now2 w
      else w in
    let w := render w in
    requestAnimationFrame w.

(** *** Control functions *)

Definition start (now : Q) (w : World) : World :=
  if isRunning (state w) then w
  else
    let w :=
      if unset (startTime (state w)) then
        if eqb (elapsed (state w)) (of_Z 0)
           && eqb (duration (state w)) (of_Z 0)
        then setPhase FOCUS false now w
        else w
      else
        with_state
          (set_startTime
             (Some (sub (Fin now) (mul (elapsed (state w)) (of_Z 1000)))))
          w in
    let w := with_state (set_isRunning true) w in
    let w := with_ui (set_btnToggle "Pause") w in
    requestAnimationFrame w.

Definition pause (w : World) : World :=
  if negb (isRunning (state w)) then w
  else
    let w := with_state (set_isRunning false) w in
    let w := with_ui (set_btnToggle "Resume") w in
    cancelAnimationFrame w.

Definition toggle (now : Q) (w : World) : World :=
  if isRunning (state w) then pause w else start now w.

(** [Number(ui.inputFocus.value || 25)]: the [||] is on the string, so
    only the empty string gives way to 25. *)
Definition resetMinutes (u : UI) : num :=
  match inputFocus u with
  | EmptyString => of_Z 25
  | v => Number v
  end.

Definition reset (w : World) : World :=
  let w := with_state (set_isRunning false) w in
  let w := cancelAnimationFrame w in
  let w := with_state (set_phase FOCUS) w in
  let w := with_state (set_cycleCount 0) w in
  let w := with_state (set_startTime None) w in
  let w := with_state (set_duration (mul (resetMinutes (ui w)) (of_Z 60))) w in
  let w := with_state (set_elapsed (of_Z 0)) w in
  let w := with_ui (set_label "READY") w in
  let w := with_ui (set_timer (formatMMSS (duration (state w)))) w in
  let w := with_ui (set_btnToggle "Start") w in
  with_ui (set_strokeDashoffset CIRCUMFERENCE) w.

(** *** Input sync logic *)

(** The literal [0.6]. *)
Definition ratioLong : num := Fin (3 # 5).

Definition focusValue (u : UI) : num :=
  or_else (Number (inputFocus u)) (of_Z 25).
Definition shortValue (u : UI) : num :=
  or_else (Number (inputShort u)) (of_Z 5).
Definition longValue (u : UI) : num :=
  or_else (Number (inputLong u)) (of_Z 15).

Definition shortFromFocus (f : num) : num :=
  clamp (round (div f (of_Z 5))) (of_Z 1) LIMIT.
Definition longFromFocus (f : num) : num :=
  clamp (round (mul f ratioLong)) (of_Z 5) LIMIT.
Definition focusFromShort (s : num) : num :=
  clamp (mul s (of_Z 5)) (of_Z 5) LIMIT.
Definition longFromShort (s : num) : num :=
  clamp (mul s (of_Z 3)) (of_Z 5) LIMIT.
Definition focusFromLong (l : num) : num :=
  clamp (round (div l ratioLong)) (of_Z 5) LIMIT.
Definition shortFromLong (l : num) : num :=
  clamp (round (div l (of_Z 3))) (of_Z 1) LIMIT.

(** [if (!state.isRunning) reset();], the end of each handler. *)
Definition resetUnlessRunning (w : World) : World :=
  if negb (isRunning (state w)) then reset w else w.

(** The three [change] listeners.  Assigning a number to [input.value]
    stores its string. *)

Definition onFocusChange (w : World) : World :=
  let f := focusValue (ui w) in
  let w := with_ui (set_inputShort (ToString (shortFromFocus f))) w in
  let w := with_ui (set_inputLong (ToString (longFromFocus f))) w in
  resetUnlessRunning w.

Definition onShortChange (w : World) : World :=
  let s := shortValue (ui w) in
  let w := with_ui (set_inputFocus (ToString (focusFromShort s))) w in
  let w := with_ui (set_inputLong (ToString (longFromShort s))) w in
  resetUnlessRunning w.

Definition onLongChange (w : World) : World :=
  let l := longValue (ui w) in
  let w := with_ui (set_inputFocus (ToString (focusFromLong l))) w in
  let w := with_ui (set_inputShort (ToString (shortFromLong l))) w in
  resetUnlessRunning w.

(** *** Events *)

Inductive Field : Type := Focus | Short | Long | Cycles.

Definition fieldValue (f : Field) (u : UI) : string :=
  match f with
  | Focus => inputFocus u
  | Short => inputShort u
  | Long => inputLong u
  | Cycles => inputCycles u
  end.

Definition setValue (f : Field) (text : string) (w : World) : World :=
  match f with
  | Focus => with_ui (set_inputFocus text) w
  | Short => with_ui (set_inputShort text) w
  | Long => with_ui (set_inputLong text) w
  | Cycles => with_ui (set_inputCycles text) w
  end.

(** The [change] listeners; the cycles field has none. *)
Definition onChange (f : Field) (w : World) : World :=
  match f with
  | Focus => onFocusChange w
  | Short => onShortChange w
  | Long => onLongChange w
  | Cycles => w
  end.

(** The user commits [text] in a field: the value is set, then [change]
    fires. *)
Definition edit (f : Field) (text : string) (w : World) : World :=
  onChange f (setValue f text w).

(** The [keydown] listener; [onInput] says whether the target is an INPUT
    element. *)
Definition keydown (onInput : bool) (code : string) (now : Q) (w : World)
  : World :=
  if onInput then w
  else
    let w := if String.eqb code "Space" then toggle now w else w in
    if String.eqb code "KeyR" then reset w else w.

(** The browser runs the pending animation-frame callbacks, all with the
    same timestamp, after emptying the list of requests. *)
Definition frame (timestamp now1 now2 : Q) (w : World) : World :=
  fold_left (fun w' (_ : nat) => loop timestamp now1 now2 w') (pending w)
    (mkWorld (state w) (ui w) [] (lastHandle w)).

Definition state0 : State :=
  mkState false FOCUS 0 None (of_Z 0) (of_Z 0) None.

(** The script's top level on a page whose elements read [page]: the ring
    is initialised, a [change] is dispatched on the focus field, and
    [reset()] is called. *)
Definition load (page : UI) : World :=
  let w := mkWorld state0 (set_strokeDashoffset CIRCUMFERENCE page) [] 0 in
  reset (onFocusChange w).

Inductive Event : Type :=
| ClickToggle (now : Q)
| ClickReset
| KeyDown (onInput : bool) (code : string) (now : Q)
| Edit (f : Field) (text : string)
| Frame (timestamp now1 now2 : Q).

Definition step (w : World) (e : Event) : World :=
  match e with
  | ClickToggle now => toggle now w
  | ClickReset => reset w
  | KeyDown onInput code now => keydown onInput code now w
  | Edit f text => edit f text w
  | Frame timestamp now1 now2 => frame timestamp now1 now2 w
  end.

(** The world after the page has loaded and the events have happened. *)
Definition run (page : UI) (events : list Event) : World :=
  fold_left step events (load page).

(** The animation-frame requests agree with the running flag: while
    running exactly one request is pending and [state.animationFrame] is
    its handle; otherwise none is pending. *)
Definition scheduled (w : World) : Prop :=
  if isRunning (state w)
  then exists h, animationFrame (state w) = Some h /\ pending w = [h]
  else pending w = [].

(** The frame's timestamp is not before the reference point, when there is
    one. *)
Definition referenceNotAfter (timestamp : Q) (w : World) : Prop :=
  unset (startTime (state w)) = true
  \/ le (timeValue (startTime (state w))) (Fin timestamp).

(** The invariant of the data model: [0 <= elapsed <= duration]. *)
Definition elapsedInRange (w : World) : Prop :=
  le (of_Z 0) (elapsed (state w))
  /\ le (elapsed (state w)) (duration (state w)).

(** A page with the usual settings in its fields. *)
Definition page25 : UI :=
  mkUI (of_Z 0) "" "" "" "25" "5" "15" "4".

End Pomodoro.

(** * Properties *)

Import JS Conv Pomodoro.
Local Open Scope string_scope.
Local Open Scope Z_scope.

(** Reduce the projections of the records, and nothing else. *)
Ltac projections :=
  cbn [state ui pending lastHandle
       isRunning phase cycleCount startTime duration elapsed animationFrame
       strokeDashoffset label timer btnToggle
       inputFocus inputShort inputLong inputCycles
       with_state with_ui
       set_isRunning set_phase set_cycleCount set_startTime set_duration
       set_elapsed set_animationFrame
       set_strokeDashoffset set_label set_timer set_btnToggle
       set_inputFocus set_inputShort set_inputLong set_inputCycles] in *.

(** ** Decimal digits *)

Section Digits.

Lemma digit_val_digit_char (d : Z) :
  digit_val (digit_char d) = Some (d mod 10).
Proof.
  unfold digit_char.
  assert (H : 0 <= d mod 10 < 10) by (apply Z.mod_pos_bound; lia).
  assert (E : d mod 10 = 0 \/ d mod 10 = 1 \/ d mod 10 = 2 \/ d mod 10 = 3
              \/ d mod 10 = 4 \/ d mod 10 = 5 \/ d mod 10 = 6
              \/ d mod 10 = 7 \/ d mod 10 = 8 \/ d mod 10 = 9) by lia.
  repeat (destruct E as [E | E]; [rewrite E; reflexivity |]).
  rewrite E; reflexivity.
Qed.

Lemma is_digit_digit_char (d : Z) : is_digit (digit_char d) = true.
Proof. unfold is_digit. now rewrite digit_val_digit_char. Qed.

Lemma dec_digits_length (fuel : nat) :
  forall n acc, (S (List.length acc) <= List.length (dec_digits fuel n acc))%nat.
Proof.
  induction fuel as [| f IH]; intros n acc; simpl.
  - lia.
  - destruct (n <? 10).
    + simpl; lia.
    + specialize (IH (n / 10) (digit_char n :: acc)). simpl in IH. lia.
Qed.



Lemma dec_list_length_pos (n : Z) : (1 <= List.length (dec_list n))%nat.
Proof. unfold dec_list. pose proof (dec_digits_length (Z.to_nat (Z.log2 n)) n []). simpl in *. lia. Qed.


Lemma string_length_of_list (l : list ascii) :
  String.length (string_of_list_ascii l) = List.length l.
Proof. induction l; simpl; congruence. Qed.

Lemma dec_length_pos (n : Z) : (1 <= String.length (dec n))%nat.
Proof. unfold dec. rewrite string_length_of_list. apply dec_list_length_pos. Qed.

End Digits.

(** ** Numbers and their strings *)

Section Numbers.

Lemma max_of_Z (a b : Z) : max (of_Z a) (of_Z b) = of_Z (Z.max a b).
Proof.
  unfold max, of_Z, leb.
  destruct (Qle_bool (inject_Z a) (inject_Z b)) eqn:E.
  - apply Qle_bool_iff in E. rewrite <- Zle_Qle in E.
    now rewrite Z.max_r.
  - assert (~ a <= b) as N.
    { intros L. rewrite Zle_Qle in L. apply Qle_bool_iff in L. congruence. }
    rewrite Z.max_l by lia. reflexivity.
Qed.

Lemma Qfloor_div_pos (n : Z) (p : positive) :
  Qfloor (inject_Z n / inject_Z (Zpos p)) = n / Zpos p.
Proof.
  unfold Qdiv, Qinv, Qmult, inject_Z, Qfloor; simpl.
  now rewrite Z.mul_1_r.
Qed.

Lemma Qtrunc_nonneg (q : Q) : (0 <= q)%Q -> Qtrunc q = Qfloor q.
Proof.
  intros H. unfold Qtrunc. apply Qle_bool_iff in H. now rewrite H.
Qed.

Lemma dec_0 : dec 0 = "0".
Proof. reflexivity. Qed.

Lemma ToString_integral (q : Q) (z : Z) :
  (q == inject_Z z)%Q -> 0 <= z < 10 ^ 21 -> ToString (Fin q) = dec z.
Proof.
  intros E [L U]. unfold ToString.
  assert (F : Qfloor q = z) by (rewrite E; apply Qfloor_Z).
  destruct (Z.eq_dec z 0) as [-> | NZ].
  - rewrite (Qeq_alt q 0) in E. rewrite E. reflexivity.
  - assert (G : (0 < q)%Q) by (rewrite E; change (inject_Z 0 < inject_Z z)%Q;
        rewrite <- Zlt_Qlt; lia).
    rewrite (Qgt_alt q 0) in G. rewrite G.
    unfold pos_list, is_integer. rewrite F.
    apply Qeq_bool_iff in E. rewrite E.
    apply Z.ltb_lt in U. rewrite U. reflexivity.
Qed.

Lemma ToString_of_Z (z : Z) :
  0 <= z < 10 ^ 21 -> ToString (of_Z z) = dec z.
Proof. intros H. now apply ToString_integral. Qed.

Lemma rem_of_Z_nonneg (n : Z) (p : positive) :
  0 <= n ->
  exists q, rem (of_Z n) (of_Z (Zpos p)) = Fin q
            /\ (q == inject_Z (n mod Zpos p))%Q.
Proof.
  intros H. unfold rem, of_Z.
  assert (NZ : Qeq_bool (inject_Z (Zpos p)) 0 = false) by reflexivity.
  rewrite NZ. eexists; split; [reflexivity |].
  rewrite Qtrunc_nonneg.
  - rewrite Qfloor_div_pos.
    rewrite (Z.mod_eq n (Zpos p)) by lia.
    unfold Qminus.
    rewrite <- inject_Z_mult, <- inject_Z_opp, <- inject_Z_plus.
    apply inject_Z_injective. lia.
  - apply Qle_shift_div_l; [reflexivity |].
    rewrite Qmult_0_l. change (inject_Z 0 <= inject_Z n)%Q.
    rewrite <- Zle_Qle. exact H.
Qed.

(** [formatMMSS] on a finite number: the whole seconds, never negative,
    split into minutes and seconds, each padded to two characters. *)
Lemma formatMMSS_Fin (q : Q) :
  let n := Z.max 0 (Qfloor q) in
  n / 60 < 10 ^ 21 ->
  formatMMSS (Fin q)
  = padStart2 (dec (n / 60)) ++ ":" ++ padStart2 (dec (n mod 60)).
Proof.
  intros n U. unfold formatMMSS, minutesText, secondsText, wholeSeconds.
  change (floor (Fin q)) with (of_Z (Qfloor q)).
  rewrite max_of_Z. fold n.
  assert (N0 : 0 <= n) by (unfold n; lia).
  change (div (of_Z n) (of_Z 60)) with (Fin (inject_Z n / inject_Z 60)).
  change (floor (Fin (inject_Z n / inject_Z 60)))
    with (of_Z (Qfloor (inject_Z n / inject_Z 60))).
  rewrite Qfloor_div_pos.
  rewrite ToString_of_Z
    by (split; [apply Z.div_pos; lia | exact U]).
  destruct (rem_of_Z_nonneg n 60 N0) as (r & -> & Er).
  rewrite (ToString_integral r (n mod 60) Er).
  - reflexivity.
  - pose proof (Z.mod_pos_bound n 60). lia.
Qed.

End Numbers.

(** ** The countdown text *)

Section Format.

Lemma padStart2_length (s : string) :
  (2 <= String.length (padStart2 s))%nat
  /\ (String.length s <= String.length (padStart2 s))%nat.
Proof. destruct s as [| a [| b s]]; simpl; lia. Qed.

Lemma dec_list_one (n : Z) : 0 <= n < 10 -> dec_list n = [digit_char n].
Proof.
  intros H. unfold dec_list.
  destruct (Z.to_nat (Z.log2 n)); simpl; [reflexivity |].
  destruct (Z.ltb_spec n 10); [reflexivity | lia].
Qed.

Lemma dec_list_two (n : Z) :
  10 <= n < 100 -> dec_list n = [digit_char (n / 10); digit_char n].
Proof.
  intros H. unfold dec_list.
  assert (L : 3 <= Z.log2 n) by (apply Z.log2_le_pow2; lia).
  destruct (Z.to_nat (Z.log2 n)) as [| f] eqn:E; [lia |].
  simpl. destruct (Z.ltb_spec n 10); [lia |].
  assert (n / 10 < 10) by (apply Z.div_lt_upper_bound; lia).
  destruct f; simpl; [reflexivity |].
  destruct (Z.ltb_spec (n / 10) 10); [reflexivity | lia].
Qed.

Lemma padStart2_dec_length (n : Z) :
  0 <= n < 100 -> String.length (padStart2 (dec n)) = 2%nat.
Proof.
  intros H. unfold dec.
  destruct (Z.lt_ge_cases n 10).
  - rewrite dec_list_one by lia. reflexivity.
  - rewrite dec_list_two by lia. reflexivity.
Qed.

Lemma wholeSeconds_Fin (q : Q) :
  wholeSeconds (Fin q) = of_Z (Z.max 0 (Qfloor q)).
Proof. unfold wholeSeconds. apply max_of_Z. Qed.

Lemma Qfloor_of_max (q : Q) :
  Z.max 0 (Qfloor (inject_Z (Z.max 0 (Qfloor q)))) = Z.max 0 (Qfloor q).
Proof. rewrite Qfloor_Z. lia. Qed.

Lemma formatMMSS_whole (q : Q) :
  formatMMSS (Fin q) = formatMMSS (of_Z (Z.max 0 (Qfloor q))).
Proof.
  unfold formatMMSS, minutesText, secondsText, of_Z.
  now rewrite !wholeSeconds_Fin, Qfloor_of_max.
Qed.

Lemma render_timer (w : World) :
  timer (ui (render w))
  = formatMMSS
      (max (of_Z 0) (sub (duration (state w)) (elapsed (state w)))).
Proof. reflexivity. Qed.

(** C7.  [formatMMSS] gives "00:00" for 0, "01:05" for 65, "00:00" for -5
    and "99:59" for 5999.  On every finite argument it gives what it gives
    on the whole, non-negative number of seconds [max 0 (floor x)]; for a
    whole number of seconds below [2^53], the range in which a JavaScript
    number holds every whole number and computes this quotient and
    remainder without error, the text is the decimal minutes, a colon and
    the decimal seconds, the minutes padded to at least two characters and
    the seconds to exactly two.  [render] sets the countdown text to
    [formatMMSS] of [max 0 (duration - elapsed)]. *)
Theorem C7_formatMMSS_floor_clamp_pad :
  (formatMMSS (of_Z 0) = "00:00"
   /\ formatMMSS (of_Z 65) = "01:05"
   /\ formatMMSS (of_Z (-5)) = "00:00"
   /\ formatMMSS (of_Z 5999) = "99:59")
  /\ (forall q : Q,
        formatMMSS (Fin q) = formatMMSS (of_Z (Z.max 0 (Qfloor q))))
  /\ (forall n : Z,
        0 <= n < 2 ^ 53 ->
        formatMMSS (of_Z n)
        = padStart2 (dec (n / 60)) ++ ":" ++ padStart2 (dec (n mod 60))
        /\ (2 <= String.length (padStart2 (dec (n / 60))))%nat
        /\ String.length (padStart2 (dec (n mod 60))) = 2%nat)
  /\ (forall w : World,
        timer (ui (render w))
        = formatMMSS
            (max (of_Z 0) (sub (duration (state w)) (elapsed (state w))))).
Proof.
  split; [repeat split; reflexivity |].
  split; [exact formatMMSS_whole |].
  split; [| exact render_timer].
  intros n [L U].
  pose proof (formatMMSS_Fin (inject_Z n)) as F. cbv zeta in F.
  rewrite Qfloor_Z in F. rewrite Z.max_r in F by lia.
  assert (B : 2 ^ 53 < 60 * 10 ^ 21) by reflexivity.
  split; [| split].
  - apply F. apply Z.div_lt_upper_bound; lia.
  - apply padStart2_length.
  - apply padStart2_dec_length. pose proof (Z.mod_pos_bound n 60). lia.
Qed.

(** At 125 seconds: two minutes, five seconds. *)
Lemma C7_witness :
  formatMMSS (of_Z 125) = "02:05".
Proof.
  exact (proj1 (proj1 (proj2 (proj2 C7_formatMMSS_floor_clamp_pad))
                  125 ltac:(lia))).
Defined.

End Format.

(** ** Long countdowns *)

Section Wide.










End Wide.

(** ** Phase transitions *)

Section Transitions.

Lemma Qtrunc_div (a : Z) (p : positive) :
  Qtrunc (inject_Z a / inject_Z (Zpos p)) = Z.quot a (Zpos p).
Proof.
  unfold Qtrunc.
  destruct (Qle_bool 0 (inject_Z a / inject_Z (Zpos p))) eqn:E.
  - apply Qle_bool_iff in E.
    assert (0 <= a).
    { rewrite (Zle_Qle 0 a).
      apply (Qmult_le_r _ _ (/ inject_Z (Zpos p))); [reflexivity |].
      rewrite Qmult_0_l. exact E. }
    rewrite Qfloor_div_pos. symmetry. apply Z.quot_div_nonneg; lia.
  - assert (a < 0).
    { destruct (Z.lt_ge_cases a 0) as [L | L]; [exact L | exfalso].
      assert (Q0 : (0 <= inject_Z a / inject_Z (Zpos p))%Q).
      { apply Qle_shift_div_l; [reflexivity |].
        rewrite Qmult_0_l. change (inject_Z 0 <= inject_Z a)%Q.
        rewrite <- Zle_Qle. lia. }
      apply Qle_bool_iff in Q0. congruence. }
    unfold Qceiling.
    assert (N : (- (inject_Z a / inject_Z (Zpos p))
                 == inject_Z (- a) / inject_Z (Zpos p))%Q).
    { rewrite inject_Z_opp. field. discriminate. }
    rewrite N, Qfloor_div_pos.
    rewrite <- (Z.opp_involutive a) at 2.
    rewrite Z.quot_opp_l by lia.
    rewrite Z.quot_div_nonneg by lia. reflexivity.
Qed.

Lemma rem_of_Z (a : Z) (p : positive) :
  eqb (rem (of_Z a) (of_Z (Zpos p))) (of_Z 0) = (a mod Zpos p =? 0).
Proof.
  unfold rem, of_Z.
  assert (NZ : Qeq_bool (inject_Z (Zpos p)) 0 = false) by reflexivity.
  rewrite NZ, Qtrunc_div. unfold eqb.
  assert (E : (inject_Z a
               - inject_Z (Zpos p) * inject_Z (Z.quot a (Zpos p))
               == inject_Z (Z.rem a (Zpos p)))%Q).
  { unfold Qminus.
    rewrite <- inject_Z_mult, <- inject_Z_opp, <- inject_Z_plus.
    apply inject_Z_injective.
    pose proof (Z.quot_rem' a (Zpos p)). lia. }
  destruct (Z.eqb_spec (a mod Zpos p) 0) as [M | M].
  - apply Qeq_bool_iff. rewrite E.
    apply Z.mod_divide in M; [| lia]. apply Z.rem_divide in M; [| lia].
    now rewrite M.
  - apply not_true_is_false. intros T. apply Qeq_bool_iff in T.
    rewrite E in T. change 0%Q with (inject_Z 0) in T.
    apply (proj1 (inject_Z_injective _ _)) in T.
    apply Z.rem_divide in T; [| lia]. apply Z.mod_divide in T; [| lia].
    contradiction.
Qed.

(** What [nextPhase] does to the phase and the count, as a function of
    both and of the number of cycles read from the page. *)
Lemma nextPhase_phase_count (now : Q) (w : World) :
  let w' := nextPhase now w in
  ui w' = set_label (PHASES (phase (state w'))) (ui w)
  /\ match phase (state w) with
     | FOCUS =>
         cycleCount (state w') = cycleCount (state w) + 1
         /\ phase (state w')
            = (if eqb (rem (of_Z (cycleCount (state w) + 1))
                         (cyclesBeforeLong (ui w))) (of_Z 0)
               then LONG else SHORT)
     | _ =>
         cycleCount (state w') = cycleCount (state w)
         /\ phase (state w') = FOCUS
     end.
Proof.
  unfold nextPhase.
  destruct (phase (state w)) eqn:P; simpl.
  - destruct (eqb _ _); simpl; auto.
  - auto.
  - auto.
Qed.

(** A whole number of cycles other than zero is used as read. *)
Lemma cyclesBeforeLong_whole (u : UI) (n : Z) :
  0 < n -> Number (inputCycles u) = of_Z n -> cyclesBeforeLong u = of_Z n.
Proof.
  intros Hn E. unfold cyclesBeforeLong, or_else. rewrite E.
  destruct n as [| p | p]; try lia. reflexivity.
Qed.

Lemma nextPhase_cycles (now : Q) (w : World) (text : string) (n : Z) :
  0 < n -> Number text = of_Z n ->
  inputCycles (ui w) = text ->
  let w' := nextPhase now w in
  inputCycles (ui w') = text
  /\ (phase (state w'), cycleCount (state w'))
     = match phase (state w) with
       | FOCUS =>
           (if (cycleCount (state w) + 1) mod n =? 0 then LONG else SHORT,
            cycleCount (state w) + 1)
       | _ => (FOCUS, cycleCount (state w))
       end.
Proof.
  intros Hn E C w'. destruct (nextPhase_phase_count now w) as [U H].
  fold w' in U, H. split.
  - rewrite U. exact C.
  - destruct (phase (state w)); destruct H as [H1 H2]; rewrite H1, H2;
      [| reflexivity | reflexivity].
    rewrite (cyclesBeforeLong_whole (ui w) n Hn) by (now rewrite C).
    destruct n as [| p | p]; try lia. now rewrite rem_of_Z.
Qed.

(** C1.  A phase completion out of FOCUS adds exactly one to the cycle
    count and goes to LONG BREAK when the new count modulo
    [Number(cycles field) || 4] is zero, to SHORT BREAK otherwise: for a
    whole positive number [n] read from the cycles field the test is the
    integer one, [(count + 1) mod n = 0], and when the field reads as zero
    or NaN it is [(count + 1) mod 4 = 0].  Out of a break it goes to FOCUS
    and leaves the count alone.  With 4 in the cycles field, from FOCUS at
    count 0, nine completions give SHORT, FOCUS, SHORT, FOCUS, SHORT,
    FOCUS, LONG (count 4), FOCUS, SHORT (count 5); with 3 in the field,
    seven completions give SHORT, FOCUS, SHORT, FOCUS, LONG (count 3),
    FOCUS, SHORT (count 4). *)
Theorem C1_nextPhase_cycle :
  forall (w : World) (now : Q),
    let w' := nextPhase now w in
    (phase (state w) = FOCUS ->
       cycleCount (state w') = cycleCount (state w) + 1
       /\ phase (state w')
          = (if eqb (rem (of_Z (cycleCount (state w) + 1))
                       (or_else (Number (inputCycles (ui w))) (of_Z 4)))
                    (of_Z 0)
             then LONG else SHORT)
       /\ (forall n : Z,
             0 < n -> Number (inputCycles (ui w)) = of_Z n ->
             phase (state w')
             = (if (cycleCount (state w) + 1) mod n =? 0
                then LONG else SHORT))
       /\ (truthy (Number (inputCycles (ui w))) = false ->
           phase (state w')
           = (if (cycleCount (state w) + 1) mod 4 =? 0
              then LONG else SHORT)))
    /\ (phase (state w) <> FOCUS ->
          phase (state w') = FOCUS
          /\ cycleCount (state w') = cycleCount (state w))
    /\ (phase (state w) = FOCUS -> cycleCount (state w) = 0 ->
        (inputCycles (ui w) = "4" ->
         List.map
           (fun k => let v := Nat.iter k (nextPhase now) w in
                     (phase (state v), cycleCount (state v)))
           (seq 1 9)
         = [(SHORT, 1); (FOCUS, 1); (SHORT, 2); (FOCUS, 2); (SHORT, 3);
            (FOCUS, 3); (LONG, 4); (FOCUS, 4); (SHORT, 5)])
        /\ (inputCycles (ui w) = "3" ->
            List.map
              (fun k => let v := Nat.iter k (nextPhase now) w in
                        (phase (state v), cycleCount (state v)))
              (seq 1 7)
            = [(SHORT, 1); (FOCUS, 1); (SHORT, 2); (FOCUS, 2); (LONG, 3);
               (FOCUS, 3); (SHORT, 4)])).
Proof.
  intros w now w'.
  pose proof (nextPhase_phase_count now w) as [_ H]. fold w' in H.
  split; [| split].
  - intros P. rewrite P in H. destruct H as [H1 H2].
    split; [exact H1 |]. split; [exact H2 |]. split.
    + intros n Hn E. rewrite H2, (cyclesBeforeLong_whole (ui w) n Hn E).
      destruct n as [| p | p]; try lia. now rewrite rem_of_Z.
    + intros T. rewrite H2. unfold cyclesBeforeLong, or_else. rewrite T.
      change (of_Z 4) with (of_Z (Zpos 4)). now rewrite rem_of_Z.
  - intros P. destruct (phase (state w)); [congruence | |];
      destruct H; auto.
  - intros P C. clear H w'.
    assert (step : forall text n,
              0 < n -> Number text = of_Z n ->
              forall v p c,
                inputCycles (ui v) = text ->
                (phase (state v), cycleCount (state v)) = (p, c) ->
                inputCycles (ui (nextPhase now v)) = text
                /\ (phase (state (nextPhase now v)),
                    cycleCount (state (nextPhase now v)))
                   = match p with
                     | FOCUS =>
                         (if (c + 1) mod n =? 0 then LONG else SHORT, c + 1)
                     | _ => (FOCUS, c)
                     end).
    { intros text n Hn E v p c Iv S0. injection S0 as <- <-.
      exact (nextPhase_cycles now v text n Hn E Iv). }
    assert (S0 : (phase (state w), cycleCount (state w)) = (FOCUS, 0))
      by (now rewrite P, C).
    split; intros I.
    + specialize (step "4" 4 ltac:(lia) ltac:(reflexivity)).
      destruct (step _ _ _ I S0) as [I1 S1]. simpl in S1.
      destruct (step _ _ _ I1 S1) as [I2 S2]. simpl in S2.
      destruct (step _ _ _ I2 S2) as [I3 S3]. simpl in S3.
      destruct (step _ _ _ I3 S3) as [I4 S4]. simpl in S4.
      destruct (step _ _ _ I4 S4) as [I5 S5]. simpl in S5.
      destruct (step _ _ _ I5 S5) as [I6 S6]. simpl in S6.
      destruct (step _ _ _ I6 S6) as [I7 S7]. simpl in S7.
      destruct (step _ _ _ I7 S7) as [I8 S8]. simpl in S8.
      destruct (step _ _ _ I8 S8) as [_ S9]. simpl in S9.
      cbv [seq List.map Nat.iter nat_rect].
      now rewrite S1, S2, S3, S4, S5, S6, S7, S8, S9.
    + specialize (step "3" 3 ltac:(lia) ltac:(reflexivity)).
      destruct (step _ _ _ I S0) as [I1 S1]. simpl in S1.
      destruct (step _ _ _ I1 S1) as [I2 S2]. simpl in S2.
      destruct (step _ _ _ I2 S2) as [I3 S3]. simpl in S3.
      destruct (step _ _ _ I3 S3) as [I4 S4]. simpl in S4.
      destruct (step _ _ _ I4 S4) as [I5 S5]. simpl in S5.
      destruct (step _ _ _ I5 S5) as [I6 S6]. simpl in S6.
      destruct (step _ _ _ I6 S6) as [_ S7]. simpl in S7.
      cbv [seq List.map Nat.iter nat_rect].
      now rewrite S1, S2, S3, S4, S5, S6, S7.
Qed.

(** On the loaded page with 3 entered in the cycles field: after four
    completions the timer is in FOCUS at count 2 and the next completion
    enters the LONG BREAK at count 3; and the seven completions listed
    above. *)
Lemma C1_witness :
  (phase (state (Nat.iter 4 (nextPhase 0) (edit Cycles "3" (load page25))))
   = FOCUS
   /\ cycleCount
        (state (Nat.iter 4 (nextPhase 0) (edit Cycles "3" (load page25))))
      = 2
   /\ 0 < 3
   /\ Number
        (inputCycles
           (ui (Nat.iter 4 (nextPhase 0) (edit Cycles "3" (load page25)))))
      = of_Z 3
   /\ phase
        (state
           (nextPhase 0
              (Nat.iter 4 (nextPhase 0) (edit Cycles "3" (load page25)))))
      = LONG
   /\ cycleCount
        (state
           (nextPhase 0
              (Nat.iter 4 (nextPhase 0) (edit Cycles "3" (load page25)))))
      = 3)
  /\ List.map
       (fun k =>
          let v := Nat.iter k (nextPhase 0) (edit Cycles "3" (load page25)) in
          (phase (state v), cycleCount (state v)))
       (seq 1 7)
     = [(SHORT, 1); (FOCUS, 1); (SHORT, 2); (FOCUS, 2); (LONG, 3);
        (FOCUS, 3); (SHORT, 4)].
Proof.
  assert (P : phase
                (state (Nat.iter 4 (nextPhase 0)
                          (edit Cycles "3" (load page25)))) = FOCUS)
    by (vm_compute; reflexivity).
  assert (C : cycleCount
                (state (Nat.iter 4 (nextPhase 0)
                          (edit Cycles "3" (load page25)))) = 2)
    by (vm_compute; reflexivity).
  assert (N : Number
                (inputCycles
                   (ui (Nat.iter 4 (nextPhase 0)
                          (edit Cycles "3" (load page25))))) = of_Z 3)
    by (vm_compute; reflexivity).
  assert (L : 0 < 3) by lia.
  pose proof (C1_nextPhase_cycle
                (Nat.iter 4 (nextPhase 0) (edit Cycles "3" (load page25)))
                0%Q) as H.
  cbv zeta in H. destruct H as (F & _ & _).
  destruct (F P) as (A & _ & B & _).
  split.
  - split; [exact P |]. split; [exact C |]. split; [exact L |].
    split; [exact N |]. split.
    + rewrite (B 3 L N), C. reflexivity.
    + rewrite A, C. reflexivity.
  - pose proof (C1_nextPhase_cycle (edit Cycles "3" (load page25)) 0%Q)
      as H.
    cbv zeta in H. destruct H as (_ & _ & R).
    apply R; vm_compute; reflexivity.
Defined.

End Transitions.

(** ** Reset *)

Section Reset.

Lemma Number_empty : Number "" = of_Z 0.
Proof. reflexivity. Qed.

Lemma resetMinutes_positive (u : UI) (q : Q) :
  (0 < q)%Q -> Number (inputFocus u) = Fin q -> resetMinutes u = Fin q.
Proof.
  intros H E. unfold resetMinutes.
  destruct (inputFocus u) eqn:V; [| exact E].
  rewrite Number_empty in E. injection E as <-.
  exfalso. revert H. apply Qlt_irrefl.
Qed.

(** [reset] in one piece. *)
Lemma reset_eq (w : World) :
  reset w
  = mkWorld
      (mkState false FOCUS 0 None (mul (resetMinutes (ui w)) (of_Z 60))
         (of_Z 0) (animationFrame (state w)))
      (mkUI CIRCUMFERENCE "READY"
         (formatMMSS (mul (resetMinutes (ui w)) (of_Z 60))) "Start"
         (inputFocus (ui w)) (inputShort (ui w)) (inputLong (ui w))
         (inputCycles (ui w)))
      (pending (cancelAnimationFrame w)) (lastHandle w).
Proof.
  destruct w as [[r p c t d e [h |]] u q l]; reflexivity.
Qed.

(** C3.  From any world, [reset()] leaves the timer stopped in FOCUS at
    cycle 0 with nothing elapsed and no reference time, the duration read
    from the focus field times 60 (1500 when the field holds 25, and
    [60 n] whenever it holds a whole positive number [n] of minutes with
    [60 n] at most [2^53], where the product of two JavaScript numbers is
    exact), the label "READY", the control "Start", the countdown text of
    the full duration ("25:00" for 25) and the ring offset at the full
    circumference, which is the empty ring.  So it is from a FOCUS
    countdown of 25 minutes that has run for 600 seconds. *)
Theorem C3_reset_restores_ready :
  (forall w : World,
     let w' := reset w in
     isRunning (state w') = false
     /\ phase (state w') = FOCUS
     /\ cycleCount (state w') = 0
     /\ elapsed (state w') = of_Z 0
     /\ startTime (state w') = None
     /\ duration (state w') = mul (resetMinutes (ui w)) (of_Z 60)
     /\ label (ui w') = "READY"
     /\ btnToggle (ui w') = "Start"
     /\ timer (ui w') = formatMMSS (duration (state w'))
     /\ strokeDashoffset (ui w') = CIRCUMFERENCE
     /\ (inputFocus (ui w) = "25" ->
         duration (state w') = of_Z 1500 /\ timer (ui w') = "25:00")
     /\ (forall n : Z,
           0 < n -> n * 60 <= 2 ^ 53 ->
           Number (inputFocus (ui w)) = of_Z n ->
           duration (state w') = of_Z (n * 60)
           /\ timer (ui w') = formatMMSS (of_Z (n * 60))))
  /\ (let w := run page25 [ClickToggle 5000; Frame 5016 5016 5016;
                           Frame 605016 605016 605016] in
      (isRunning (state w) = true
       /\ phase (state w) = FOCUS
       /\ duration (state w) = of_Z 1500
       /\ equiv (elapsed (state w)) (of_Z 600)
       /\ timer (ui w) = "15:00")
      /\ state (reset w)
         = mkState false FOCUS 0 None (of_Z 1500) (of_Z 0)
             (animationFrame (state w))
      /\ timer (ui (reset w)) = "25:00"
      /\ label (ui (reset w)) = "READY"
      /\ btnToggle (ui (reset w)) = "Start"
      /\ strokeDashoffset (ui (reset w)) = CIRCUMFERENCE
      /\ pending (reset w) = []).
Proof.
  split.
  - intros w w'. subst w'. rewrite reset_eq. projections.
    repeat match goal with |- _ /\ _ => split end; try reflexivity.
    + intros H. unfold resetMinutes. rewrite H. split; reflexivity.
    + intros n Hn _ E.
      rewrite (resetMinutes_positive (ui w) (inject_Z n)) by
        (try exact E; change 0%Q with (inject_Z 0); rewrite <- Zlt_Qlt; exact Hn).
      split; reflexivity.
  - vm_compute. repeat split; reflexivity.
Qed.

(** At the loaded page with 25 in the focus field. *)
Lemma C3_witness :
  duration (state (reset (load page25))) = of_Z 1500
  /\ timer (ui (reset (load page25))) = "25:00".
Proof.
  exact (proj1 (proj2 (proj2 (proj2 (proj2 (proj2 (proj2 (proj2 (proj2
           (proj2 (proj2 (proj1 C3_reset_restores_ready
                            (load page25))))))))))))
           ltac:(reflexivity)).
Defined.

End Reset.

(** ** Pause and the animation frames *)

Section Schedule.

Lemma pause_stopped (w : World) :
  isRunning (state w) = false -> pause w = w.
Proof. intros H. unfold pause. now rewrite H. Qed.

Lemma pause_not_running (w : World) : isRunning (state (pause w)) = false.
Proof.
  unfold pause. destruct (isRunning (state w)) eqn:R; simpl.
  - unfold cancelAnimationFrame. projections.
    destruct (animationFrame (state w)); reflexivity.
  - exact R.
Qed.

(** C8.  On a world that is not running [pause()] returns the world as it
    is: no field of the state, no text of the page and no pending frame
    changes.  Hence a second [pause()] in a row changes nothing, and the
    running flag is false after either. *)
Theorem C8_pause_idempotent :
  forall w : World,
    (isRunning (state w) = false -> pause w = w)
    /\ pause (pause w) = pause w
    /\ isRunning (state (pause w)) = false
    /\ isRunning (state (pause (pause w))) = false.
Proof.
  intros w. split; [apply pause_stopped |].
  split; [apply pause_stopped, pause_not_running |].
  split; apply pause_not_running.
Qed.

(** The freshly loaded page is not running. *)
Lemma C8_witness : pause (load page25) = load page25.
Proof.
  exact (proj1 (C8_pause_idempotent (load page25)) ltac:(reflexivity)).
Defined.

Lemma loop_stopped (timestamp now1 now2 : Q) (w : World) :
  isRunning (state w) = false -> loop timestamp now1 now2 w = w.
Proof. intros H. unfold loop. now rewrite H. Qed.

Lemma setPhase_schedule (p : Phase) (b : bool) (now : Q) (w : World) :
  isRunning (state (setPhase p b now w)) = isRunning (state w)
  /\ animationFrame (state (setPhase p b now w)) = animationFrame (state w)
  /\ pending (setPhase p b now w) = pending w
  /\ lastHandle (setPhase p b now w) = lastHandle w.
Proof. unfold setPhase. destruct b; repeat split. Qed.

Lemma nextPhase_schedule (now : Q) (w : World) :
  isRunning (state (nextPhase now w)) = isRunning (state w)
  /\ animationFrame (state (nextPhase now w)) = animationFrame (state w)
  /\ pending (nextPhase now w) = pending w
  /\ lastHandle (nextPhase now w) = lastHandle w.
Proof.
  unfold nextPhase.
  destruct (phase (state w)); [destruct (eqb _ _) |..];
    match goal with
    | |- context [setPhase ?p ?b ?n ?v] =>
        destruct (setPhase_schedule p b n v) as (A & B & C & D);
        rewrite A, B, C, D
    end; repeat split.
Qed.

Lemma loop_running (timestamp now1 now2 : Q) (w : World) :
  isRunning (state w) = true ->
  let w' := loop timestamp now1 now2 w in
  isRunning (state w') = true
  /\ animationFrame (state w') = Some (S (lastHandle w))
  /\ pending w' = (pending w ++ [S (lastHandle w)])%list
  /\ lastHandle w' = S (lastHandle w).
Proof.
  intros R. unfold loop. rewrite R. cbn [negb].
  set (w2 := measure timestamp w).
  assert (H1 : isRunning (state w2) = true /\ pending w2 = pending w
               /\ lastHandle w2 = lastHandle w)
    by (unfold w2, measure; destruct (unset _); repeat split; exact R).
  set (w3 := if geb _ _ then _ else w2).
  assert (H3 : isRunning (state w3) = true /\ pending w3 = pending w
               /\ lastHandle w3 = lastHandle w).
  { unfold w3. destruct (geb _ _); [| exact H1].
    unfold completePhase. projections.
    destruct (nextPhase_schedule now1 (render (clampToDuration w2)))
      as (A & _ & B & C).
    rewrite A, B, C. exact H1. }
  destruct H3 as (A & B & C).
  unfold requestAnimationFrame, render. projections.
  rewrite A, B, C. repeat split.
Qed.

Lemma scheduled_with_ui (f : UI -> UI) (w : World) :
  scheduled w -> scheduled (with_ui f w).
Proof. exact (fun H => H). Qed.

Lemma scheduled_reset (w : World) : scheduled w -> scheduled (reset w).
Proof.
  intros H. rewrite reset_eq. unfold scheduled in *. projections.
  unfold cancelAnimationFrame.
  destruct (isRunning (state w)).
  - destruct H as (h & -> & P). projections. rewrite P. simpl.
    now rewrite Nat.eqb_refl.
  - destruct (animationFrame (state w)); projections; rewrite H; reflexivity.
Qed.

Lemma scheduled_pause (w : World) : scheduled w -> scheduled (pause w).
Proof.
  intros H. unfold pause. destruct (isRunning (state w)) eqn:R; [| exact H].
  unfold scheduled in *. rewrite R in H. destruct H as (h & A & P).
  unfold cancelAnimationFrame. projections. rewrite A. projections.
  rewrite P. simpl. now rewrite Nat.eqb_refl.
Qed.

Lemma start_stopped (now : Q) (w : World) :
  isRunning (state w) = false ->
  let w' := start now w in
  isRunning (state w') = true
  /\ animationFrame (state w') = Some (lastHandle w')
  /\ pending w' = (pending w ++ [lastHandle w'])%list.
Proof.
  intros R. unfold start. rewrite R.
  set (w1 := if unset (startTime (state w)) then _ else _).
  assert (H1 : pending w1 = pending w /\ lastHandle w1 = lastHandle w).
  { unfold w1. destruct (unset _); [destruct (_ && _) |]; now split. }
  destruct H1 as [B C].
  unfold requestAnimationFrame. projections. rewrite B. repeat split.
Qed.

Lemma scheduled_start (now : Q) (w : World) :
  scheduled w -> scheduled (start now w).
Proof.
  intros H. destruct (isRunning (state w)) eqn:R.
  - unfold start. now rewrite R.
  - destruct (start_stopped now w R) as (A & B & C).
    unfold scheduled in *. rewrite R in H. rewrite A, C, H.
    eexists; split; [exact B | reflexivity].
Qed.

Lemma scheduled_toggle (now : Q) (w : World) :
  scheduled w -> scheduled (toggle now w).
Proof.
  intros H. unfold toggle.
  destruct (isRunning (state w)); [now apply scheduled_pause |].
  now apply scheduled_start.
Qed.

Lemma scheduled_resetUnlessRunning (w : World) :
  scheduled w -> scheduled (resetUnlessRunning w).
Proof.
  intros H. unfold resetUnlessRunning.
  destruct (negb _); [now apply scheduled_reset | exact H].
Qed.

Lemma scheduled_edit (f : Field) (text : string) (w : World) :
  scheduled w -> scheduled (edit f text w).
Proof.
  intros H. destruct f; try exact H;
    apply scheduled_resetUnlessRunning; exact H.
Qed.

Lemma frame_stopped (timestamp now1 now2 : Q) (w : World) :
  pending w = [] -> frame timestamp now1 now2 w = w.
Proof.
  intros P. unfold frame. rewrite P. destruct w; simpl in *. now subst.
Qed.

Lemma scheduled_frame (timestamp now1 now2 : Q) (w : World) :
  scheduled w -> scheduled (frame timestamp now1 now2 w).
Proof.
  intros H. unfold scheduled in H.
  destruct (isRunning (state w)) eqn:R.
  - destruct H as (h & A & P). unfold frame. rewrite P. simpl.
    set (w0 := mkWorld (state w) (ui w) [] (lastHandle w)).
    destruct (loop_running timestamp now1 now2 w0 R) as (A' & B' & C' & _).
    unfold scheduled. rewrite A'. eexists; split; [exact B' | exact C'].
  - rewrite frame_stopped by exact H. unfold scheduled. now rewrite R.
Qed.

Lemma scheduled_step (w : World) (e : Event) :
  scheduled w -> scheduled (step w e).
Proof.
  intros H. destruct e as [now | | onInput code now | f text | t n1 n2];
    simpl.
  - now apply scheduled_toggle.
  - now apply scheduled_reset.
  - unfold keydown. destruct onInput; [exact H |].
    assert (H' : scheduled (if String.eqb code "Space"
                            then toggle now w else w))
      by (destruct (String.eqb code "Space");
          [now apply scheduled_toggle | exact H]).
    destruct (String.eqb code "KeyR"); [now apply scheduled_reset | exact H'].
  - now apply scheduled_edit.
  - now apply scheduled_frame.
Qed.

(** Every world the page can be in keeps the frames in step with the
    running flag. *)
Lemma scheduled_run (page : UI) (events : list Event) :
  scheduled (run page events).
Proof.
  unfold run.
  assert (L : scheduled (load page)).
  { unfold load. apply scheduled_reset, scheduled_resetUnlessRunning.
    reflexivity. }
  revert L. generalize (load page).
  induction events as [| e es IH]; intros w H; simpl; [exact H |].
  apply IH. now apply scheduled_step.
Qed.

(** C9.  When the timer is not running, a call of [loop] returns the world
    as it is: the state is unchanged, no phase changes, and no frame is
    requested.  After [pause()] that is the case; moreover, in every world
    the page can reach, [pause()] leaves no frame pending, so the browser
    has no callback to run, until [start()] requests one again. *)
Theorem C9_stopped_loop_inert :
  (forall (w : World) (timestamp now1 now2 : Q),
     isRunning (state w) = false -> loop timestamp now1 now2 w = w)
  /\ (forall (w : World) (timestamp now1 now2 : Q),
        loop timestamp now1 now2 (pause w) = pause w)
  /\ (forall (page : UI) (events : list Event),
        let w := pause (run page events) in
        pending w = []
        /\ (forall timestamp now1 now2 : Q,
              frame timestamp now1 now2 w = w)
        /\ (forall now : Q,
              isRunning (state (start now w)) = true
              /\ pending (start now w) = [lastHandle (start now w)])).
Proof.
  split; [exact (fun w t a b => loop_stopped t a b w) |].
  split; [intros; apply loop_stopped, pause_not_running |].
  intros page events w.
  assert (S : scheduled w) by apply scheduled_pause, scheduled_run.
  assert (R : isRunning (state w) = false) by apply pause_not_running.
  assert (P : pending w = []) by (unfold scheduled in S; now rewrite R in S).
  split; [exact P |].
  split; [intros; now apply frame_stopped |].
  intros now. destruct (start_stopped now w R) as (A & _ & C).
  rewrite P in C. now split.
Qed.

(** The freshly loaded page is not running: a stray frame does nothing. *)
Lemma C9_witness : loop 16 16 16 (load page25) = load page25.
Proof.
  exact (proj1 C9_stopped_loop_inert (load page25) 16%Q 16%Q 16%Q
           ltac:(reflexivity)).
Defined.

End Schedule.

(** ** Reading back a written whole number *)

Section ReadBack.

Lemma digit_not_ws (c : ascii) : is_digit c = true -> is_ws c = false.
Proof.
  unfold is_digit, digit_val, is_ws.
  destruct (Z.leb_spec 48 (code c)); destruct (Z.leb_spec (code c) 57);
    simpl; try discriminate.
  intros _.
  destruct (Z.leb_spec 9 (code c)); destruct (Z.leb_spec (code c) 13);
    destruct (Z.eqb_spec (code c) 32); simpl; try reflexivity; lia.
Qed.

Lemma drop_ws_digits (l : list ascii) :
  forallb is_digit l = true -> drop_ws l = l.
Proof.
  destruct l as [| c r]; [reflexivity |]. simpl. intros H.
  apply andb_prop in H. destruct H as [H _].
  now rewrite (digit_not_ws c H).
Qed.

Lemma forallb_rev (f : ascii -> bool) (l : list ascii) :
  forallb f l = true -> forallb f (rev l) = true.
Proof.
  rewrite !forallb_forall. intros H x I. apply H. now apply in_rev.
Qed.

Lemma trim_digits (l : list ascii) :
  forallb is_digit l = true -> trim l = l.
Proof.
  intros H. unfold trim.
  rewrite (drop_ws_digits l H).
  rewrite (drop_ws_digits (rev l) (forallb_rev _ _ H)).
  apply rev_involutive.
Qed.

Lemma span_digits_all (l : list ascii) :
  forallb is_digit l = true ->
  span_digits digit_val l = (List.map digitValue l, []).
Proof.
  induction l as [| c r IH]; [reflexivity |]. simpl. intros H.
  apply andb_prop in H. destruct H as [Hc Hr].
  rewrite (IH Hr).
  unfold is_digit in Hc. unfold digitValue.
  unfold digit_val in *. destruct (_ && _); [reflexivity | discriminate].
Qed.

Lemma digitValue_digit_char (d : Z) : digitValue (digit_char d) = d mod 10.
Proof.
  pose proof (digit_val_digit_char d) as H. unfold digit_val in H.
  unfold digitValue. destruct (_ && _); [| discriminate].
  now injection H.
Qed.

Lemma digits_value_app (ds : list Z) (d : Z) :
  digits_value 10 (ds ++ [d]) = digits_value 10 ds * 10 + d.
Proof. unfold digits_value. now rewrite fold_left_app. Qed.

Lemma dec_digits_value (fuel : nat) :
  forall n acc,
    0 <= n < 2 ^ (Z.of_nat fuel + 1) ->
    exists pre,
      dec_digits fuel n acc = (pre ++ acc)%list
      /\ pre <> []
      /\ forallb is_digit pre = true
      /\ digits_value 10 (List.map digitValue pre) = n.
Proof.
  induction fuel as [| f IH]; intros n acc H.
  - exists [digit_char n]. simpl in *.
    rewrite is_digit_digit_char, digitValue_digit_char.
    repeat split; [discriminate |]. unfold digits_value. simpl.
    rewrite Z.mod_small; lia.
  - cbn [dec_digits]. destruct (Z.ltb_spec n 10) as [Sm | Sm].
    + exists [digit_char n]. simpl.
      rewrite is_digit_digit_char, digitValue_digit_char.
      repeat split; [discriminate |]. unfold digits_value. simpl.
      rewrite Z.mod_small; lia.
    + assert (B : 0 <= n / 10 < 2 ^ (Z.of_nat f + 1)).
      { split; [apply Z.div_pos; lia |].
        apply Z.div_lt_upper_bound; [lia |].
        replace (Z.of_nat (S f) + 1) with (Z.succ (Z.of_nat f + 1)) in H
          by lia.
        rewrite Z.pow_succ_r in H by lia. lia. }
      destruct (IH (n / 10) (digit_char n :: acc) B) as (pre & E & NE & D & V).
      exists (pre ++ [digit_char n])%list.
      rewrite E, <- app_assoc. simpl.
      repeat split.
      * destruct pre; discriminate.
      * rewrite forallb_app, D. simpl. now rewrite is_digit_digit_char.
      * rewrite map_app. simpl. rewrite digits_value_app, V.
        rewrite digitValue_digit_char.
        pose proof (Z.div_mod n 10). lia.
Qed.

Lemma dec_list_value (n : Z) :
  0 <= n ->
  dec_list n <> []
  /\ forallb is_digit (dec_list n) = true
  /\ digits_value 10 (List.map digitValue (dec_list n)) = n.
Proof.
  intros H. unfold dec_list.
  assert (B : 0 <= n < 2 ^ (Z.of_nat (Z.to_nat (Z.log2 n)) + 1)).
  { split; [exact H |].
    rewrite Z2Nat.id by apply Z.log2_nonneg.
    destruct (Z.eq_dec n 0) as [-> | NZ]; [reflexivity |].
    replace (Z.log2 n + 1) with (Z.succ (Z.log2 n)) by lia.
    apply Z.log2_spec. lia. }
  destruct (dec_digits_value _ n [] B) as (pre & E & NE & D & V).
  rewrite E, app_nil_r. auto.
Qed.

(** A text of digits only is read as a decimal literal. *)
Lemma parse_numeric_digits (l : list ascii) :
  l <> [] -> forallb is_digit l = true ->
  parse_numeric l = of_Z (digits_value 10 (List.map digitValue l)).
Proof.
  intros NE D.
  assert (U : parse_unsigned l
              = of_Z (digits_value 10 (List.map digitValue l))).
  { unfold parse_unsigned.
    assert (I : list_eqb l infinity_text = false).
    { destruct l as [| c r]; [contradiction |].
      simpl in D. apply andb_prop in D. destruct D as [Dc _].
      unfold list_eqb, infinity_text. simpl.
      destruct (Ascii.eqb_spec c "I"%char) as [-> | N]; [discriminate |].
      reflexivity. }
    rewrite I, (span_digits_all l D). rewrite app_nil_r.
    destruct (List.map digitValue l) eqn:M.
    - destruct l; [contradiction | discriminate].
    - unfold parse_exponent, of_Z. f_equal.
      rewrite <- M. change (Z.of_nat (List.length (@nil Z))) with 0.
      rewrite (Qred_complete _ (inject_Z (digits_value 10 (List.map digitValue l)))).
      + apply Qred_identity. simpl. apply Z.gcd_1_r.
      + change (Qpower 10 (0 - 0)) with 1%Q. ring. }
  destruct l as [| c r]; [contradiction |].
  pose proof D as D'. simpl in D'. apply andb_prop in D'.
  destruct D' as [Dc Dr].
  destruct (Ascii.eqb_spec c "+"%char) as [-> | N1]; [discriminate |].
  destruct (Ascii.eqb_spec c "-"%char) as [-> | N2]; [discriminate |].
  destruct (Ascii.eqb_spec c "0"%char) as [-> | N3].
  - destruct r as [| p r']; [exact U |].
    simpl in Dr. apply andb_prop in Dr. destruct Dr as [Dp _].
    unfold parse_numeric.
    destruct (Ascii.eqb_spec p "x"%char) as [-> | ]; [discriminate |].
    destruct (Ascii.eqb_spec p "X"%char) as [-> | ]; [discriminate |].
    destruct (Ascii.eqb_spec p "o"%char) as [-> | ]; [discriminate |].
    destruct (Ascii.eqb_spec p "O"%char) as [-> | ]; [discriminate |].
    destruct (Ascii.eqb_spec p "b"%char) as [-> | ]; [discriminate |].
    destruct (Ascii.eqb_spec p "B"%char) as [-> | ]; [discriminate |].
    exact U.
  - rewrite <- U. unfold parse_numeric.
    destruct c as [[] [] [] [] [] [] [] []]; try reflexivity;
      congruence.
Qed.

Lemma Number_dec (n : Z) : 0 <= n -> Number (dec n) = of_Z n.
Proof.
  intros H. destruct (dec_list_value n H) as (NE & D & V).
  unfold Number, dec. rewrite list_ascii_of_string_of_list_ascii.
  rewrite (trim_digits _ D), (parse_numeric_digits _ NE D). now rewrite V.
Qed.

(** A whole number from 0 up to [10^21], once written in a field, is read
    back as itself. *)
Lemma Number_ToString_of_Z (n : Z) :
  0 <= n < 10 ^ 21 -> Number (ToString (of_Z n)) = of_Z n.
Proof.
  intros H. rewrite ToString_of_Z by exact H. apply Number_dec. lia.
Qed.

End ReadBack.

(** ** Defaults for unusable field values *)

Section Defaults.

(** C4.  [setPhase] and [nextPhase] read [Number(value) || default], and
    so take 25 minutes or 4 cycles for a field that holds "0", "abc" or
    nothing.  [reset] reads [Number(value || 25)]: it takes 25 for the
    empty field only.  With "0" in the focus field it sets the duration to
    0 and shows "00:00"; with "abc" the duration is NaN and the text
    "NaN:NaN".  The focus edit itself derives the other fields from 25 and
    then calls [reset], which gives the duration 0. *)
Theorem C4_reset_misses_default :
  (let w := setValue Focus "0" (load page25) in
   minutesFor FOCUS (ui w) = of_Z 25
   /\ duration (state (setPhase FOCUS false 0 w)) = of_Z 1500
   /\ resetMinutes (ui w) = of_Z 0
   /\ duration (state (reset w)) = of_Z 0
   /\ timer (ui (reset w)) = "00:00")
  /\ (let w := setValue Focus "abc" (load page25) in
      minutesFor FOCUS (ui w) = of_Z 25
      /\ duration (state (setPhase FOCUS false 0 w)) = of_Z 1500
      /\ duration (state (reset w)) = NaN
      /\ timer (ui (reset w)) = "NaN:NaN")
  /\ (let w := setValue Focus "" (load page25) in
      duration (state (setPhase FOCUS false 0 w)) = of_Z 1500
      /\ duration (state (reset w)) = of_Z 1500)
  /\ (let w := run page25 [Edit Focus "0"] in
      inputShort (ui w) = "5"
      /\ inputLong (ui w) = "15"
      /\ duration (state w) = of_Z 0
      /\ timer (ui w) = "00:00")
  /\ (minutesFor SHORT (ui (setValue Short "0" (load page25))) = of_Z 5
      /\ minutesFor LONG (ui (setValue Long "x" (load page25))) = of_Z 15
      /\ cyclesBeforeLong (ui (setValue Cycles "0" (load page25))) = of_Z 4
      /\ cyclesBeforeLong (ui (setValue Cycles "" (load page25))) = of_Z 4
      /\ cyclesBeforeLong (ui (setValue Cycles "four" (load page25)))
         = of_Z 4).
Proof. vm_compute. repeat split; reflexivity. Qed.

End Defaults.

(** ** Clamping *)

Section Clamp.

Lemma min_of_Z (a b : Z) : min (of_Z a) (of_Z b) = of_Z (Z.min a b).
Proof.
  unfold min, of_Z, leb.
  destruct (Qle_bool (inject_Z a) (inject_Z b)) eqn:E.
  - apply Qle_bool_iff in E. rewrite <- Zle_Qle in E.
    now rewrite Z.min_l.
  - assert (~ a <= b) as N.
    { intros L. rewrite Zle_Qle in L. apply Qle_bool_iff in L. congruence. }
    rewrite Z.min_r by lia. reflexivity.
Qed.

Lemma clamp_of_Z (v a b : Z) :
  clamp (of_Z v) (of_Z a) (of_Z b) = of_Z (Z.max a (Z.min b v)).
Proof. unfold clamp. now rewrite min_of_Z, max_of_Z. Qed.

Lemma leb_of_Z (a b : Z) : leb (of_Z a) (of_Z b) = (a <=? b).
Proof.
  unfold leb, of_Z. destruct (Z.leb_spec a b) as [L | L].
  - apply Qle_bool_iff. now rewrite <- Zle_Qle.
  - apply not_true_is_false. intros T. apply Qle_bool_iff in T.
    rewrite <- Zle_Qle in T. lia.
Qed.

Lemma leb_total (x y : num) :
  x <> NaN -> y <> NaN -> leb x y = false -> leb y x = true.
Proof.
  destruct x as [| | a |], y as [| | b |]; simpl; try congruence.
  intros _ _ H. apply Qle_bool_iff.
  destruct (Qlt_le_dec b a) as [L | L].
  - now apply Qlt_le_weak.
  - apply Qle_bool_iff in L. congruence.
Qed.

Lemma leb_refl (x : num) : x <> NaN -> leb x x = true.
Proof.
  destruct x; simpl; try congruence. intros _. apply Qle_bool_iff.
  apply Qle_refl.
Qed.

Lemma leb_trans (x y z : num) :
  leb x y = true -> leb y z = true -> leb x z = true.
Proof.
  destruct x as [| | a |], y as [| | b |], z as [| | c |]; simpl;
    try congruence.
  rewrite !Qle_bool_iff. apply Qle_trans.
Qed.

(** A clamped number lies between the bounds, whatever it was, unless it
    was NaN. *)
Lemma clamp_range (v : num) (a b : Z) :
  v <> NaN -> a <= b ->
  le (of_Z a) (clamp v (of_Z a) (of_Z b))
  /\ le (clamp v (of_Z a) (of_Z b)) (of_Z b).
Proof.
  intros NV AB. unfold le, clamp.
  assert (LA : leb (of_Z a) (of_Z a) = true) by (rewrite leb_of_Z; lia).
  assert (LB : leb (of_Z b) (of_Z b) = true) by (rewrite leb_of_Z; lia).
  assert (LAB : leb (of_Z a) (of_Z b) = true) by (rewrite leb_of_Z; lia).
  destruct v as [| | q |]; try congruence.
  - change (max (of_Z a) (min (of_Z b) NInf)) with (of_Z a). now split.
  - assert (M : min (of_Z b) (Fin q) = of_Z b /\ leb (of_Z b) (Fin q) = true
                \/ min (of_Z b) (Fin q) = Fin q
                   /\ leb (Fin q) (of_Z b) = true).
    { unfold min. change (of_Z b) with (Fin (inject_Z b)).
      destruct (leb (Fin (inject_Z b)) (Fin q)) eqn:E; [now left | right].
      split; [reflexivity |]. apply leb_total; [discriminate .. | exact E]. }
    destruct M as [[-> M] | [-> M]].
    + rewrite max_of_Z, Z.max_r by lia. now split.
    + unfold max. change (of_Z a) with (Fin (inject_Z a)) in *.
      destruct (leb (Fin (inject_Z a)) (Fin q)) eqn:E; now split.
  - change (min (of_Z b) PInf) with (of_Z b).
    rewrite max_of_Z, Z.max_r by lia. now split.
Qed.

(** A clamped rounded number is a whole number between the bounds. *)
Lemma clamp_round_whole (x : num) (a b : Z) :
  x <> NaN -> a <= b ->
  exists z, clamp (round x) (of_Z a) (of_Z b) = of_Z z /\ a <= z <= b.
Proof.
  intros NX AB. destruct x as [| | q |]; try congruence.
  - exists a. split; [| lia]. unfold round, clamp.
    change (min (of_Z b) NInf) with NInf. reflexivity.
  - exists (Z.max a (Z.min b (Qfloor (q + (1 # 2))))).
    split; [apply clamp_of_Z | lia].
  - exists b. split; [| lia]. unfold round, clamp.
    change (min (of_Z b) PInf) with (of_Z b).
    rewrite max_of_Z. f_equal. lia.
Qed.

Lemma or_else_defined (x : num) (d : Z) : or_else x (of_Z d) <> NaN.
Proof.
  unfold or_else. destruct x; simpl; try discriminate.
  destruct (negb _); discriminate.
Qed.

Lemma or_else_nonzero (x : num) (q : Q) :
  x = Fin q -> ~ (q == 0)%Q -> forall d, or_else x d = Fin q.
Proof.
  intros -> N d. unfold or_else, truthy.
  destruct (Qeq_bool q 0) eqn:E; [| reflexivity].
  apply Qeq_bool_iff in E. contradiction.
Qed.

Lemma div_defined (x : num) (b : Q) :
  x <> NaN -> (0 < b)%Q -> div x (Fin b) <> NaN.
Proof.
  intros NX B.
  assert (C : (b ?= 0)%Q = Gt) by (now apply Qgt_alt).
  assert (E : Qeq_bool b 0 = false).
  { apply not_true_is_false. intros T. apply Qeq_bool_iff in T.
    rewrite T in B. revert B. apply Qlt_irrefl. }
  destruct x; simpl; try congruence; rewrite ?E, ?C; discriminate.
Qed.

Lemma mul_defined (x : num) (b : Q) :
  x <> NaN -> (0 < b)%Q -> mul x (Fin b) <> NaN.
Proof.
  intros NX B.
  assert (C : (b ?= 0)%Q = Gt) by (now apply Qgt_alt).
  destruct x; simpl; try congruence; rewrite ?C; discriminate.
Qed.

End Clamp.

(** ** The linked fields *)

Section Sync.

Lemma resetUnlessRunning_ui (w : World) :
  inputFocus (ui (resetUnlessRunning w)) = inputFocus (ui w)
  /\ inputShort (ui (resetUnlessRunning w)) = inputShort (ui w)
  /\ inputLong (ui (resetUnlessRunning w)) = inputLong (ui w)
  /\ inputCycles (ui (resetUnlessRunning w)) = inputCycles (ui w).
Proof.
  unfold resetUnlessRunning. destruct (negb _); [| now repeat split].
  rewrite reset_eq. now repeat split.
Qed.

Lemma whole_in_field (z a : Z) :
  0 <= a -> a <= z <= 9000 -> Number (ToString (of_Z z)) = of_Z z.
Proof.
  intros A H. apply Number_ToString_of_Z.
  assert (9000 < 10 ^ 21) by reflexivity. lia.
Qed.

Lemma focusValue_defined (text : string) (d : Z) (b : Q) :
  (0 < b)%Q ->
  div (or_else (Number text) (of_Z d)) (Fin b) <> NaN
  /\ mul (or_else (Number text) (of_Z d)) (Fin b) <> NaN.
Proof.
  intros B. split; [apply div_defined | apply mul_defined];
    auto using or_else_defined.
Qed.

(** C5, against the claim.  A 3 typed in the focus field stays 3, below
    the minimum of 5, and the other two fields are derived from 3 and not
    from the default 25; 10000 stays above 9000; a 0 typed in the cycles
    field stays 0. *)
Lemma C5_counterexample :
  (let w := edit Focus "3" (load page25) in
   inputFocus (ui w) = "3"
   /\ leb (of_Z 5) (Number (inputFocus (ui w))) = false
   /\ inputShort (ui w) = "1"
   /\ inputLong (ui w) = "5"
   /\ shortFromFocus (of_Z 25) = of_Z 5
   /\ longFromFocus (of_Z 25) = of_Z 15)
  /\ (let w := edit Focus "10000" (load page25) in
      inputFocus (ui w) = "10000"
      /\ leb (Number (inputFocus (ui w))) LIMIT = false)
  /\ (let w := edit Cycles "0" (load page25) in
      inputCycles (ui w) = "0"
      /\ leb (of_Z 1) (Number (inputCycles (ui w))) = false).
Proof. vm_compute. repeat split; reflexivity. Qed.

(** C5, amended.  After an edit of the focus, short or long field, each of
    the other two duration fields holds the number the handler derived,
    which lies within the field's bounds (1 to 9000 for short, 5 to 9000
    for focus and long); after a focus or long edit, or a short edit to a
    whole number, these are whole numbers and the fields read back as
    them.  The edited field keeps the text that was entered and the
    cycles field is not touched; an edit of the cycles field only stores
    the text.  The number entered is used as it is whenever it is a
    number other than zero, also below the minimum. *)
Theorem C5_edit_clamps_derived :
  forall (w : World) (text : string),
    (let w' := edit Focus text w in
     let f := or_else (Number text) (of_Z 25) in
     inputFocus (ui w') = text
     /\ inputCycles (ui w') = inputCycles (ui w)
     /\ inputShort (ui w') = ToString (shortFromFocus f)
     /\ inputLong (ui w') = ToString (longFromFocus f)
     /\ exists s l : Z,
          (1 <= s <= 9000 /\ 5 <= l <= 9000)
          /\ shortFromFocus f = of_Z s
          /\ longFromFocus f = of_Z l
          /\ Number (inputShort (ui w')) = of_Z s
          /\ Number (inputLong (ui w')) = of_Z l)
    /\ (let w' := edit Short text w in
        let s := or_else (Number text) (of_Z 5) in
        inputShort (ui w') = text
        /\ inputCycles (ui w') = inputCycles (ui w)
        /\ inputFocus (ui w') = ToString (focusFromShort s)
        /\ inputLong (ui w') = ToString (longFromShort s)
        /\ (le (of_Z 5) (focusFromShort s) /\ le (focusFromShort s) LIMIT)
        /\ (le (of_Z 5) (longFromShort s) /\ le (longFromShort s) LIMIT)
        /\ (forall n : Z,
              Number text = of_Z n -> n <> 0 ->
              Number (inputFocus (ui w'))
              = of_Z (Z.max 5 (Z.min 9000 (n * 5)))
              /\ Number (inputLong (ui w'))
                 = of_Z (Z.max 5 (Z.min 9000 (n * 3)))))
    /\ (let w' := edit Long text w in
        let l := or_else (Number text) (of_Z 15) in
        inputLong (ui w') = text
        /\ inputCycles (ui w') = inputCycles (ui w)
        /\ inputFocus (ui w') = ToString (focusFromLong l)
        /\ inputShort (ui w') = ToString (shortFromLong l)
        /\ exists f s : Z,
             (5 <= f <= 9000 /\ 1 <= s <= 9000)
             /\ focusFromLong l = of_Z f
             /\ shortFromLong l = of_Z s
             /\ Number (inputFocus (ui w')) = of_Z f
             /\ Number (inputShort (ui w')) = of_Z s)
    /\ edit Cycles text w = setValue Cycles text w
    /\ (forall q : Q,
          Number text = Fin q -> ~ (q == 0)%Q ->
          or_else (Number text) (of_Z 25) = Fin q
          /\ or_else (Number text) (of_Z 5) = Fin q
          /\ or_else (Number text) (of_Z 15) = Fin q).
Proof.
  intros w text.
  assert (P35 : (0 < 3 # 5)%Q) by reflexivity.
  assert (P5 : (0 < inject_Z 5)%Q) by reflexivity.
  assert (P3 : (0 < inject_Z 3)%Q) by reflexivity.
  split; [| split; [| split; [| split]]].
  - cbv zeta. unfold edit, onChange, onFocusChange, setValue.
    set (v := with_ui (set_inputLong _) _).
    destruct (resetUnlessRunning_ui v) as (A & B & C & D).
    rewrite A, B, C, D. unfold v. projections. unfold focusValue.
    projections. set (f := or_else (Number text) (of_Z 25)).
    repeat (split; [reflexivity |]).
    destruct (clamp_round_whole (div f (of_Z 5)) 1 9000) as (s & Es & Hs);
      [now apply focusValue_defined | lia |].
    destruct (clamp_round_whole (mul f ratioLong) 5 9000) as (l & El & Hl);
      [now apply focusValue_defined | lia |].
    exists s, l. unfold shortFromFocus, longFromFocus, LIMIT.
    rewrite Es, El.
    rewrite (whole_in_field s 1), (whole_in_field l 5) by lia.
    now repeat split.
  - cbv zeta. unfold edit, onChange, onShortChange, setValue.
    set (v := with_ui (set_inputLong _) _).
    destruct (resetUnlessRunning_ui v) as (A & B & C & D).
    rewrite A, B, C, D. unfold v. projections. unfold shortValue.
    projections. set (s := or_else (Number text) (of_Z 5)).
    repeat (split; [reflexivity |]).
    split; [| split].
    + apply clamp_range; [now apply focusValue_defined | lia].
    + apply clamp_range; [now apply focusValue_defined | lia].
    + intros n E NZ.
      assert (S : s = of_Z n).
      { unfold s. apply (or_else_nonzero _ (inject_Z n) E).
        intros Z0. change 0%Q with (inject_Z 0) in Z0.
        apply (proj1 (inject_Z_injective _ _)) in Z0. contradiction. }
      rewrite S. unfold focusFromShort, longFromShort, LIMIT.
      change (mul (of_Z n) (of_Z 5)) with (of_Z (n * 5)).
      change (mul (of_Z n) (of_Z 3)) with (of_Z (n * 3)).
      rewrite !clamp_of_Z.
      rewrite (whole_in_field _ 5), (whole_in_field _ 5) by lia.
      now split.
  - cbv zeta. unfold edit, onChange, onLongChange, setValue.
    set (v := with_ui (set_inputShort _) _).
    destruct (resetUnlessRunning_ui v) as (A & B & C & D).
    rewrite A, B, C, D. unfold v. projections. unfold longValue.
    projections. set (l := or_else (Number text) (of_Z 15)).
    repeat (split; [reflexivity |]).
    destruct (clamp_round_whole (div l ratioLong) 5 9000) as (f & Ef & Hf);
      [now apply focusValue_defined | lia |].
    destruct (clamp_round_whole (div l (of_Z 3)) 1 9000) as (s & Es & Hs);
      [now apply focusValue_defined | lia |].
    exists f, s. unfold focusFromLong, shortFromLong, LIMIT.
    rewrite Ef, Es.
    rewrite (whole_in_field f 5), (whole_in_field s 1) by lia.
    now repeat split.
  - reflexivity.
  - intros q E N. repeat split; now apply or_else_nonzero.
Qed.

(** A 2 typed in the short field: focus becomes 10 and long 6. *)
Lemma C5_witness :
  Number (inputFocus (ui (edit Short "2" (load page25)))) = of_Z 10
  /\ Number (inputLong (ui (edit Short "2" (load page25)))) = of_Z 6.
Proof.
  exact (proj2 (proj2 (proj2 (proj2 (proj2 (proj2
           (proj1 (proj2 (C5_edit_clamps_derived (load page25) "2"))))))))
           2 ltac:(reflexivity) ltac:(discriminate)).
Defined.

End Sync.

(** ** Round trips through the linked fields *)

Section RoundTrip.

Lemma within_of_Z_Fin (d : Q) (z : Z) (q : Q) :
  (inject_Z z - q <= d)%Q -> (q - inject_Z z <= d)%Q ->
  within d (of_Z z) (Fin q) = true.
Proof.
  intros A B. unfold within, of_Z, sub, neg, add, leb.
  apply andb_true_intro. split; apply Qle_bool_iff; assumption.
Qed.

Lemma within_of_Z (d x y : Z) :
  x - y <= d -> y - x <= d -> within (inject_Z d) (of_Z x) (of_Z y) = true.
Proof.
  intros A B. apply within_of_Z_Fin.
  - unfold Qminus. rewrite <- inject_Z_opp, <- inject_Z_plus.
    rewrite <- Zle_Qle. lia.
  - unfold Qminus. rewrite <- inject_Z_opp, <- inject_Z_plus.
    rewrite <- Zle_Qle. lia.
Qed.

Lemma shortFromFocus_Fin (q : Q) :
  shortFromFocus (Fin q)
  = of_Z (Z.max 1 (Z.min 9000 (Qfloor (q / 5 + (1 # 2))))).
Proof. unfold shortFromFocus, LIMIT. apply clamp_of_Z. Qed.

Lemma longFromFocus_Fin (q : Q) :
  longFromFocus (Fin q)
  = of_Z (Z.max 5 (Z.min 9000 (Qfloor (q * (3 # 5) + (1 # 2))))).
Proof. unfold longFromFocus, LIMIT. apply clamp_of_Z. Qed.

Lemma focusFromShort_of_Z (s : Z) :
  focusFromShort (of_Z s) = of_Z (Z.max 5 (Z.min 9000 (s * 5))).
Proof. unfold focusFromShort, LIMIT. apply clamp_of_Z. Qed.

Lemma focusFromLong_of_Z (l : Z) :
  focusFromLong (of_Z l)
  = of_Z (Z.max 5 (Z.min 9000 (Qfloor (inject_Z l / (3 # 5) + (1 # 2))))).
Proof. unfold focusFromLong, LIMIT. apply clamp_of_Z. Qed.

Lemma Qfloor_bounds (x : Q) :
  (inject_Z (Qfloor x) <= x)%Q /\ (x < inject_Z (Qfloor x) + 1)%Q.
Proof.
  split; [apply Qfloor_le |].
  pose proof (Qlt_floor x) as H. rewrite inject_Z_plus in H. exact H.
Qed.

Lemma Qfloor_between (x : Q) (a b : Z) :
  (inject_Z a <= x)%Q -> (x <= inject_Z b + (1 # 2))%Q -> a <= Qfloor x <= b.
Proof.
  intros A B. split.
  - rewrite <- (Qfloor_Z a). now apply Qfloor_resp_le.
  - destruct (Qfloor_bounds x) as [L _].
    assert (H : (inject_Z (Qfloor x) < inject_Z (b + 1))%Q).
    { rewrite inject_Z_plus. change (inject_Z 1) with 1%Q. lra. }
    rewrite <- Zlt_Qlt in H. lia.
Qed.

(** The short way round, for any focus value. *)
Lemma short_trip (q : Q) :
  (5 <= q)%Q -> (q <= 9000)%Q ->
  exists r : Z,
    focusFromShort (shortFromFocus (Fin q)) = of_Z (r * 5)
    /\ (inject_Z (r * 5) - q <= 5 # 2)%Q
    /\ (q - inject_Z (r * 5) <= 5 # 2)%Q.
Proof.
  intros L U. rewrite shortFromFocus_Fin.
  change (q / 5)%Q with (q * (1 # 5))%Q.
  set (r := Qfloor (q * (1 # 5) + (1 # 2))).
  assert (B : 1 <= r <= 1800).
  { apply Qfloor_between.
    - change (inject_Z 1) with 1%Q. lra.
    - change (inject_Z 1800) with 1800%Q. lra. }
  exists r.
  replace (Z.max 1 (Z.min 9000 r)) with r by lia.
  rewrite focusFromShort_of_Z.
  replace (Z.max 5 (Z.min 9000 (r * 5))) with (r * 5) by lia.
  split; [reflexivity |].
  destruct (Qfloor_bounds (q * (1 # 5) + (1 # 2))) as [F1 F2].
  fold r in F1, F2.
  rewrite inject_Z_mult. change (inject_Z 5) with 5%Q. split; lra.
Qed.

(** The long way round, for any focus value. *)
Lemma long_trip (q : Q) :
  (5 <= q)%Q -> (q <= 9000)%Q ->
  exists r : Z,
    focusFromLong (longFromFocus (Fin q)) = of_Z r
    /\ (inject_Z r - q <= 3)%Q /\ (q - inject_Z r <= 3)%Q
    /\ ((15 # 2 <= q)%Q ->
        (inject_Z r - q <= 4 # 3)%Q /\ (q - inject_Z r <= 4 # 3)%Q).
Proof.
  intros L U. set (r1 := Qfloor (q * (3 # 5) + (1 # 2))).
  assert (B1 : 3 <= r1 <= 5400).
  { apply Qfloor_between.
    - change (inject_Z 3) with 3%Q. lra.
    - change (inject_Z 5400) with 5400%Q. lra. }
  destruct (Qfloor_bounds (q * (3 # 5) + (1 # 2))) as [F1 F2].
  fold r1 in F1, F2.
  rewrite longFromFocus_Fin. fold r1.
  replace (Z.min 9000 r1) with r1 by lia.
  rewrite focusFromLong_of_Z.
  destruct (Z.lt_ge_cases r1 5) as [S | S].
  - replace (Z.max 5 r1) with 5 by lia.
    exists 8. split; [reflexivity |].
    assert (I : (inject_Z r1 <= 4)%Q).
    { change 4%Q with (inject_Z 4). rewrite <- Zle_Qle. lia. }
    change (inject_Z 8) with 8%Q. repeat split; lra.
  - replace (Z.max 5 r1) with r1 by lia.
    set (r2 := Qfloor (inject_Z r1 / (3 # 5) + (1 # 2))).
    assert (I5 : (5 <= inject_Z r1)%Q)
      by (change 5%Q with (inject_Z 5); rewrite <- Zle_Qle; lia).
    assert (I54 : (inject_Z r1 <= 5400)%Q)
      by (change 5400%Q with (inject_Z 5400); rewrite <- Zle_Qle; lia).
    assert (D : (inject_Z r1 / (3 # 5) == inject_Z r1 * (5 # 3))%Q)
      by (field).
    assert (B2 : 5 <= r2 <= 9000).
    { apply Qfloor_between; rewrite D.
      - change (inject_Z 5) with 5%Q. lra.
      - change (inject_Z 9000) with 9000%Q. lra. }
    destruct (Qfloor_bounds (inject_Z r1 / (3 # 5) + (1 # 2))) as [G1 G2].
    fold r2 in G1, G2. rewrite D in G1, G2.
    exists r2. replace (Z.max 5 (Z.min 9000 r2)) with r2 by lia.
    split; [reflexivity |]. repeat split; lra.
Qed.

Lemma Qfloor_fifth (z : Z) :
  Qfloor (inject_Z z / 5 + (1 # 2)) = (2 * z + 5) / 10.
Proof.
  unfold Qfloor, Qplus, Qdiv, Qmult, Qinv, inject_Z.
  cbn -[Z.mul Z.add Z.div]. f_equal. lia.
Qed.

Lemma Qfloor_three_fifths (z : Z) :
  Qfloor (inject_Z z * (3 # 5) + (1 # 2)) = (6 * z + 5) / 10.
Proof.
  unfold Qfloor, Qplus, Qmult, inject_Z.
  cbn -[Z.mul Z.add Z.div]. f_equal. lia.
Qed.

Lemma Qfloor_five_thirds (z : Z) :
  Qfloor (inject_Z z / (3 # 5) + (1 # 2)) = (10 * z + 3) / 6.
Proof.
  unfold Qfloor, Qplus, Qdiv, Qmult, Qinv, inject_Z.
  cbn -[Z.mul Z.add Z.div]. f_equal. lia.
Qed.

(** Both ways round, for a whole focus value. *)
Lemma whole_trips (z : Z) :
  5 <= z <= 9000 ->
  exists a b : Z,
    focusFromShort (shortFromFocus (of_Z z)) = of_Z a
    /\ focusFromLong (longFromFocus (of_Z z)) = of_Z b
    /\ (a - z <= 2 /\ z - a <= 2)
    /\ (7 <= z -> b - z <= 1 /\ z - b <= 1).
Proof.
  intros H. unfold of_Z at 1 3.
  rewrite shortFromFocus_Fin, longFromFocus_Fin.
  rewrite focusFromShort_of_Z, focusFromLong_of_Z.
  rewrite Qfloor_five_thirds, Qfloor_fifth, Qfloor_three_fifths.
  eexists; eexists. split; [reflexivity |]. split; [reflexivity |].
  pose proof (Z.div_mod (2 * z + 5) 10 ltac:(lia)) as D1.
  pose proof (Z.mod_pos_bound (2 * z + 5) 10 ltac:(lia)) as M1.
  pose proof (Z.div_mod (6 * z + 5) 10 ltac:(lia)) as D2.
  pose proof (Z.mod_pos_bound (6 * z + 5) 10 ltac:(lia)) as M2.
  set (s := (2 * z + 5) / 10) in *. set (l := (6 * z + 5) / 10) in *.
  replace (Z.max 1 (Z.min 9000 s)) with s by lia.
  replace (Z.max 5 (Z.min 9000 (s * 5))) with (s * 5) by lia.
  split; [lia |]. intros S7.
  set (l' := Z.max 5 (Z.min 9000 l)).
  assert (L' : l' = l \/ l' = 5 /\ z = 7) by lia.
  pose proof (Z.div_mod (10 * l' + 3) 6 ltac:(lia)) as D3.
  pose proof (Z.mod_pos_bound (10 * l' + 3) 6 ltac:(lia)) as M3.
  set (f := (10 * l' + 3) / 6) in *.
  assert (F : 8 <= f <= 9000) by lia.
  replace (Z.max 5 (Z.min 9000 f)) with f by lia.
  lia.
Qed.

End RoundTrip.

Section RoundTripEvents.

Lemma edit_Focus_derived (w : World) (text : string) :
  let f := or_else (Number text) (of_Z 25) in
  inputShort (ui (edit Focus text w)) = ToString (shortFromFocus f)
  /\ inputLong (ui (edit Focus text w)) = ToString (longFromFocus f).
Proof.
  cbv zeta. unfold edit, onChange, onFocusChange, setValue.
  set (v := with_ui (set_inputLong _) _).
  destruct (resetUnlessRunning_ui v) as (_ & B & C & _).
  rewrite B, C. now split.
Qed.

Lemma edit_Short_focus (w : World) (text : string) :
  inputFocus (ui (edit Short text w))
  = ToString (focusFromShort (or_else (Number text) (of_Z 5))).
Proof.
  unfold edit, onChange, onShortChange, setValue.
  set (v := with_ui (set_inputLong _) _).
  destruct (resetUnlessRunning_ui v) as (A & _). now rewrite A.
Qed.

Lemma edit_Long_focus (w : World) (text : string) :
  inputFocus (ui (edit Long text w))
  = ToString (focusFromLong (or_else (Number text) (of_Z 15))).
Proof.
  unfold edit, onChange, onLongChange, setValue.
  set (v := with_ui (set_inputShort _) _).
  destruct (resetUnlessRunning_ui v) as (A & _). now rewrite A.
Qed.

Lemma or_else_whole (z : Z) (d : num) : z <> 0 -> or_else (of_Z z) d = of_Z z.
Proof.
  intros NZ. apply (or_else_nonzero _ (inject_Z z) eq_refl).
  intros Z0. change 0%Q with (inject_Z 0) in Z0.
  apply (proj1 (inject_Z_injective _ _)) in Z0. contradiction.
Qed.

(** What comes back into the focus field when the derived short, or the
    derived long, is committed in its own field. *)
Lemma fed_back (w : World) (text : string) (q : Q) :
  Number text = Fin q -> (5 <= q)%Q -> (q <= 9000)%Q ->
  let w1 := edit Focus text w in
  Number (inputFocus (ui (edit Short (inputShort (ui w1)) w1)))
  = focusFromShort (shortFromFocus (Fin q))
  /\ Number (inputFocus (ui (edit Long (inputLong (ui w1)) w1)))
     = focusFromLong (longFromFocus (Fin q)).
Proof.
  intros E L U w1.
  destruct (edit_Focus_derived w text) as [S1 L1]. fold w1 in S1, L1.
  assert (F : or_else (Number text) (of_Z 25) = Fin q).
  { apply or_else_nonzero; [exact E |]. intros Z0. rewrite Z0 in L.
    now apply L. }
  rewrite F in S1, L1.
  rewrite edit_Short_focus, edit_Long_focus, S1, L1.
  rewrite shortFromFocus_Fin, longFromFocus_Fin.
  set (s := Z.max 1 _). set (l := Z.max 5 _).
  rewrite (whole_in_field s 1), (whole_in_field l 5) by lia.
  rewrite !or_else_whole by lia.
  rewrite focusFromShort_of_Z, focusFromLong_of_Z.
  split; apply (whole_in_field _ 5); lia.
Qed.

(** C6, against the claim.  From focus 7 the derived short is 1, and the
    short edit gives focus 5, two away from 7; from focus 5 the derived
    long is 3 clamped to 5, and the long edit gives focus 8, three away
    from 5. *)
Lemma C6_counterexample :
  (shortFromFocus (of_Z 7) = of_Z 1
   /\ focusFromShort (of_Z 1) = of_Z 5
   /\ within 1 (focusFromShort (shortFromFocus (of_Z 7))) (of_Z 7) = false)
  /\ (longFromFocus (of_Z 5) = of_Z 5
      /\ focusFromLong (of_Z 5) = of_Z 8
      /\ within 1 (focusFromLong (longFromFocus (of_Z 5))) (of_Z 5) = false)
  /\ (let w1 := edit Focus "7" (load page25) in
      inputShort (ui w1) = "1"
      /\ inputFocus (ui (edit Short (inputShort (ui w1)) w1)) = "5")
  /\ (let w1 := edit Focus "5" (load page25) in
      inputLong (ui w1) = "5"
      /\ inputFocus (ui (edit Long (inputLong (ui w1)) w1)) = "8").
Proof. vm_compute. repeat split; reflexivity. Qed.

(** C6, amended.  Let the focus field be edited to a number [q] from 5 to
    9000.  Committing the derived short in the short field puts in the
    focus field a value within 5/2 of [q], and within 2 when [q] is
    whole.  Committing the derived long in the long field puts there a
    value within 3 of [q]; within 4/3 once [q] is at least 7.5; and within
    1 when [q] is whole and at least 7. *)
Theorem C6_round_trip_tolerance :
  forall (w : World) (text : string) (q : Q),
    Number text = Fin q -> (5 <= q)%Q -> (q <= 9000)%Q ->
    let w1 := edit Focus text w in
    let viaShort :=
      Number (inputFocus (ui (edit Short (inputShort (ui w1)) w1))) in
    let viaLong :=
      Number (inputFocus (ui (edit Long (inputLong (ui w1)) w1))) in
    viaShort = focusFromShort (shortFromFocus (Fin q))
    /\ viaLong = focusFromLong (longFromFocus (Fin q))
    /\ within (5 # 2) viaShort (Fin q) = true
    /\ within 3 viaLong (Fin q) = true
    /\ ((15 # 2 <= q)%Q -> within (4 # 3) viaLong (Fin q) = true)
    /\ (forall z : Z,
          q = inject_Z z ->
          within 2 viaShort (Fin q) = true
          /\ (7 <= z -> within 1 viaLong (Fin q) = true)).
Proof.
  intros w text q E L U w1 viaShort viaLong.
  destruct (fed_back w text q E L U) as [VS VL].
  fold w1 in VS, VL. fold viaShort in VS. fold viaLong in VL.
  rewrite VS, VL. clear VS VL viaShort viaLong.
  destruct (short_trip q L U) as (r & Er & A1 & A2).
  destruct (long_trip q L U) as (r' & Er' & B1 & B2 & B3).
  split; [reflexivity |]. split; [reflexivity |].
  split; [rewrite Er; now apply within_of_Z_Fin |].
  split; [rewrite Er'; now apply within_of_Z_Fin |].
  split.
  - intros H. rewrite Er'. destruct (B3 H). now apply within_of_Z_Fin.
  - intros z ->.
    assert (Hz : 5 <= z <= 9000).
    { change 5%Q with (inject_Z 5) in L.
      change 9000%Q with (inject_Z 9000) in U.
      rewrite <- Zle_Qle in L, U. lia. }
    destruct (whole_trips z Hz) as (a & b & Ea & Eb & [C1 C2] & C3).
    unfold of_Z in Ea, Eb. rewrite Ea, Eb. split.
    + now apply (within_of_Z 2).
    + intros S7. destruct (C3 S7). now apply (within_of_Z 1).
Qed.

(** Focus 25 comes back as 25 both ways. *)
Lemma C6_witness :
  let w1 := edit Focus "25" (load page25) in
  within (5 # 2)
    (Number (inputFocus (ui (edit Short (inputShort (ui w1)) w1))))
    (of_Z 25) = true
  /\ within 3
       (Number (inputFocus (ui (edit Long (inputLong (ui w1)) w1))))
       (of_Z 25) = true.
Proof.
  pose proof (C6_round_trip_tolerance (load page25) "25" 25%Q
                ltac:(reflexivity) ltac:(discriminate) ltac:(discriminate))
    as H.
  exact (conj (proj1 (proj2 (proj2 H))) (proj1 (proj2 (proj2 (proj2 H))))).
Defined.

End RoundTripEvents.

(** ** Elapsed time within the duration *)

Section Range.

Lemma le_zero_times_60 (m : num) :
  le (of_Z 0) m -> le (of_Z 0) (mul m (of_Z 60)).
Proof.
  unfold le. destruct m as [| | a |]; simpl; try discriminate.
  - rewrite !Qle_bool_iff. intros H.
    apply Qmult_le_0_compat; [exact H | discriminate].
  - reflexivity.
Qed.

Lemma setPhase_times (p : Phase) (b : bool) (now : Q) (w : World) :
  elapsed (state (setPhase p b now w)) = of_Z 0
  /\ duration (state (setPhase p b now w))
     = mul (minutesFor p (ui w)) (of_Z 60)
  /\ startTime (state (setPhase p b now w)) = Some (Fin now).
Proof. unfold setPhase. destruct b, p; repeat split. Qed.

Lemma nextPhase_times (now : Q) (w : World) :
  exists p,
    elapsed (state (nextPhase now w)) = of_Z 0
    /\ duration (state (nextPhase now w))
       = mul (minutesFor p (ui w)) (of_Z 60).
Proof.
  unfold nextPhase.
  destruct (phase (state w)); [destruct (eqb _ _) |..];
    match goal with
    | |- context [setPhase ?p ?b ?n ?v] =>
        exists p; destruct (setPhase_times p b n v) as (A & B & _);
        rewrite A, B
    end; split; reflexivity.
Qed.

Lemma completePhase_times (now1 now2 : Q) (w : World) :
  exists p,
    elapsed (state (completePhase now1 now2 w)) = of_Z 0
    /\ duration (state (completePhase now1 now2 w))
       = mul (minutesFor p (ui w)) (of_Z 60)
    /\ startTime (state (completePhase now1 now2 w)) = Some (Fin now2).
Proof.
  unfold completePhase.
  destruct (nextPhase_times now1 (render (clampToDuration w)))
    as (p & A & B).
  exists p. projections. rewrite A, B. destruct p; repeat split.
Qed.

Lemma measure_elapsed (timestamp : Q) (w : World) :
  referenceNotAfter timestamp w ->
  le (of_Z 0) (elapsed (state (measure timestamp w)))
  /\ duration (state (measure timestamp w)) = duration (state w)
  /\ ui (measure timestamp w) = ui w.
Proof.
  intros H. unfold measure.
  destruct (unset (startTime (state w))) eqn:Un; projections.
  - repeat split. unfold le, sub, neg, add. simpl.
    apply Qle_bool_iff.
    assert (E : ((timestamp + - timestamp) / inject_Z 1000 == 0)%Q) by field.
    rewrite E. apply Qle_refl.
  - repeat split. destruct H as [H | H]; [congruence |].
    unfold le in *.
    destruct (startTime (state w)) as [[| | t0 |] |]; simpl in *;
      try discriminate; try reflexivity.
    apply Qle_bool_iff in H. apply Qle_bool_iff.
    apply Qle_shift_div_l; [reflexivity |].
    change (0 * 1000 <= timestamp + - t0)%Q. lra.
Qed.

Lemma le_defined (x y : num) : le x y -> x <> NaN /\ y <> NaN.
Proof.
  unfold le. destruct x, y; simpl; try discriminate; split; discriminate.
Qed.

Lemma loop_in_range (timestamp now1 now2 : Q) (w : World) :
  elapsedInRange w ->
  (forall p, le (of_Z 0) (minutesFor p (ui w))) ->
  referenceNotAfter timestamp w ->
  elapsedInRange (loop timestamp now1 now2 w).
Proof.
  intros I M R. unfold loop.
  destruct (isRunning (state w)); [| exact I]. cbn [negb].
  destruct (measure_elapsed timestamp w R) as (E0 & D & U).
  set (m := measure timestamp w) in *.
  destruct (geb (elapsed (state m)) (duration (state m))) eqn:G.
  - destruct (completePhase_times now1 now2 m) as (p & A & B & _).
    unfold elapsedInRange, requestAnimationFrame, render. projections.
    rewrite A, B, U.
    split; [reflexivity |]. apply le_zero_times_60, M.
  - unfold elapsedInRange, requestAnimationFrame, render. projections.
    split; [exact E0 |].
    apply leb_total; [| | exact G].
    + rewrite D. destruct I as [_ I]. now apply le_defined in I.
    + now apply le_defined in E0.
Qed.

Lemma start_in_range (now : Q) (w : World) :
  elapsedInRange w -> le (of_Z 0) (minutesFor FOCUS (ui w)) ->
  elapsedInRange (start now w).
Proof.
  intros I M. unfold start.
  destruct (isRunning (state w)); [exact I |].
  unfold elapsedInRange, requestAnimationFrame. projections.
  destruct (unset (startTime (state w))); [| exact I].
  destruct (_ && _); [| exact I].
  destruct (setPhase_times FOCUS false now w) as (A & B & _).
  rewrite A, B. split; [reflexivity |]. now apply le_zero_times_60.
Qed.

Lemma pause_in_range (w : World) :
  elapsedInRange w -> elapsedInRange (pause w).
Proof.
  intros I. unfold pause. destruct (negb _); [exact I |].
  unfold elapsedInRange, cancelAnimationFrame. projections.
  destruct (animationFrame (state w)); exact I.
Qed.

(** C2, against the claim.  With -5 entered in the focus field, [reset()]
    returns with nothing elapsed and a duration of -300 seconds, a number:
    the elapsed time exceeds the duration.  And when the timer is resumed
    at clock reading 9000 with nothing elapsed, a frame stamped 8996 makes
    the elapsed time negative. *)
Lemma C2_counterexample :
  (let w := run page25 [Edit Focus "-5"; ClickReset] in
   inputFocus (ui w) = "-5"
   /\ duration (state w) = of_Z (-300)
   /\ elapsed (state w) = of_Z 0
   /\ leb (elapsed (state w)) (duration (state w)) = false
   /\ ~ elapsedInRange w)
  /\ (let w := run page25 [ClickToggle 5000; Frame 5016 5016 5016;
                           ClickToggle 5020; ClickToggle 9000] in
      let w' := loop 8996 8996 8996 w in
      elapsedInRange w
      /\ equiv (timeValue (startTime (state w))) (of_Z 9000)
      /\ duration (state w') = of_Z 1500
      /\ leb (of_Z 0) (elapsed (state w')) = false
      /\ ~ elapsedInRange w').
Proof.
  split; cbv zeta.
  - repeat match goal with |- _ /\ _ => split end;
      try (vm_compute; reflexivity).
    intros [_ H]. vm_compute in H. discriminate.
  - repeat match goal with |- _ /\ _ => split end;
      try (vm_compute; reflexivity).
    + split; vm_compute; reflexivity.
    + intros [H _]. vm_compute in H. discriminate.
Qed.

(** C2, amended.  [0 <= elapsed <= duration] holds after [setPhase] and
    after [reset] whenever the minutes they read from the page are not
    negative (and, for [reset], a number); [pause] keeps it; [start] keeps
    it when the focus minutes are not negative; a tick keeps it when no
    field reads as negative and the frame's timestamp is not before the
    reference point.  A tick of a running timer whose measured elapsed
    time reaches the duration first sets the elapsed time to the duration
    and redraws, then makes the transition, after which the elapsed time
    is zero and the reference point is the new clock reading. *)
Theorem C2_elapsed_within_duration :
  forall w : World,
    (forall (p : Phase) (fromTransition : bool) (now : Q),
       le (of_Z 0) (minutesFor p (ui w)) ->
       elapsedInRange (setPhase p fromTransition now w))
    /\ (le (of_Z 0) (resetMinutes (ui w)) -> elapsedInRange (reset w))
    /\ (elapsedInRange w -> elapsedInRange (pause w))
    /\ (forall now : Q,
          elapsedInRange w -> le (of_Z 0) (minutesFor FOCUS (ui w)) ->
          elapsedInRange (start now w))
    /\ (forall timestamp now1 now2 : Q,
          elapsedInRange w ->
          (forall p, le (of_Z 0) (minutesFor p (ui w))) ->
          referenceNotAfter timestamp w ->
          elapsedInRange (loop timestamp now1 now2 w))
    /\ (forall timestamp now1 now2 : Q,
          isRunning (state w) = true ->
          let m := measure timestamp w in
          geb (elapsed (state m)) (duration (state m)) = true ->
          elapsed (state (clampToDuration m)) = duration (state m)
          /\ completePhase now1 now2 m
             = with_state (set_startTime (Some (Fin now2)))
                 (nextPhase now1 (render (clampToDuration m)))
          /\ loop timestamp now1 now2 w
             = requestAnimationFrame (render (completePhase now1 now2 m))
          /\ elapsed (state (loop timestamp now1 now2 w)) = of_Z 0
          /\ startTime (state (loop timestamp now1 now2 w))
             = Some (Fin now2)).
Proof.
  intros w. repeat match goal with |- _ /\ _ => split end.
  - intros p b now M.
    destruct (setPhase_times p b now w) as (A & B & _).
    unfold elapsedInRange. rewrite A, B.
    split; [reflexivity |]. now apply le_zero_times_60.
  - intros M. rewrite reset_eq. unfold elapsedInRange. projections.
    split; [reflexivity |]. now apply le_zero_times_60.
  - apply pause_in_range.
  - intros now. apply start_in_range.
  - intros t n1 n2. apply loop_in_range.
  - intros t n1 n2 R m G.
    assert (L : loop t n1 n2 w
                = requestAnimationFrame (render (completePhase n1 n2 m))).
    { unfold loop. rewrite R. cbn [negb]. fold m. now rewrite G. }
    destruct (completePhase_times n1 n2 m) as (p & A & _ & C).
    repeat split; try reflexivity; try exact L.
    + rewrite L. unfold requestAnimationFrame, render. projections. exact A.
    + rewrite L. unfold requestAnimationFrame, render. projections. exact C.
Qed.

(** On the loaded page, running since the frame at 5016 ms: the frame at
    10016 ms leaves the elapsed time in range. *)
Lemma C2_witness :
  elapsedInRange
    (loop 10016 10016 10016
       (run page25 [ClickToggle 5000; Frame 5016 5016 5016])).
Proof.
  apply (proj1 (proj2 (proj2 (proj2 (proj2 (C2_elapsed_within_duration
           (run page25 [ClickToggle 5000; Frame 5016 5016 5016]))))))).
  - split; reflexivity.
  - intros p; destruct p; reflexivity.
  - right. reflexivity.
Defined.

End Range.

(** * Further properties of the script *)

(** ** [clamp] *)

Section ClampCases.

(** X1.  [clamp(v, min, max)] with finite bounds [min <= max] and [v] a
    number: the result lies between the bounds; it is [min] when
    [v < min], [max] when [v > max], and [v] itself when [v] is in
    between.  A NaN stays NaN, and when the bounds are crossed
    ([max < min]) every number gives [min]. *)
Theorem X1_clamp_cases :
  forall (v : num) (a b : Q),
    v <> NaN ->
    ((a <= b)%Q ->
       (le (Fin a) (clamp v (Fin a) (Fin b))
        /\ le (clamp v (Fin a) (Fin b)) (Fin b))
       /\ (ltb v (Fin a) = true -> clamp v (Fin a) (Fin b) = Fin a)
       /\ (ltb (Fin b) v = true -> clamp v (Fin a) (Fin b) = Fin b)
       /\ (le (Fin a) v -> le v (Fin b) ->
           equiv (clamp v (Fin a) (Fin b)) v))
    /\ ((b < a)%Q -> clamp v (Fin a) (Fin b) = Fin a)
    /\ clamp NaN (Fin a) (Fin b) = NaN.
Proof.
  intros v a b NV. split; [| split; [| reflexivity]].
  - intros AB.
    assert (E : Qle_bool a b = true) by (now apply Qle_bool_iff).
    assert (Ra : Qle_bool a a = true) by apply Qle_bool_iff, Qle_refl.
    assert (Rb : Qle_bool b b = true) by apply Qle_bool_iff, Qle_refl.
    unfold le, equiv, clamp, ltb, max, min, leb, eqb.
    destruct v as [| | q |]; try congruence.
    + rewrite E, Ra. split; [now split |].
      split; [reflexivity |]. split; discriminate.
    + destruct (Qle_bool b q) eqn:BQ.
      * rewrite E, Rb.
        assert (AQ : Qle_bool a q = true).
        { apply Qle_bool_iff. apply Qle_bool_iff in BQ.
          now apply (Qle_trans _ b). }
        rewrite AQ. split; [now split |].
        split; [discriminate |]. split; [reflexivity |].
        intros _ QB. apply Qle_bool_iff in QB, BQ.
        apply Qeq_bool_iff. now apply Qle_antisym.
      * assert (QB : Qle_bool q b = true).
        { apply Qle_bool_iff. destruct (Qlt_le_dec q b) as [L | L].
          - now apply Qlt_le_weak.
          - apply Qle_bool_iff in L. congruence. }
        destruct (Qle_bool a q) eqn:AQ; cbn [negb].
        -- rewrite QB. split; [now split |].
           split; [discriminate |]. split; [discriminate |].
           intros _ _. apply Qeq_bool_iff. reflexivity.
        -- rewrite E, Ra, QB. split; [now split |].
           split; [reflexivity |]. split; discriminate.
    + rewrite E, Rb. split; [now split |].
      split; [discriminate |]. split; [reflexivity |]. discriminate.
  - intros BA. unfold clamp, max, min, leb.
    assert (E : Qle_bool a b = false).
    { apply not_true_is_false. intros T. apply Qle_bool_iff in T.
      apply (Qlt_not_le _ _ BA T). }
    destruct v as [| | q |]; try congruence; rewrite ?E; try reflexivity.
    destruct (Qle_bool b q) eqn:BQ; rewrite ?E; [reflexivity |].
    destruct (Qle_bool a q) eqn:AQ; [| reflexivity].
    exfalso. apply Qle_bool_iff in AQ.
    assert (L : (b <= q)%Q)
      by (apply Qlt_le_weak; now apply (Qlt_le_trans _ a)).
    apply Qle_bool_iff in L. congruence.
Qed.

(** 12000 minutes are cut to the limit of 9000. *)
Lemma X1_witness : clamp (of_Z 12000) (of_Z 5) LIMIT = LIMIT.
Proof.
  exact (proj1 (proj2 (proj2 (proj1
           (X1_clamp_cases (of_Z 12000) 5 9000 ltac:(discriminate))
           ltac:(discriminate))))
           ltac:(reflexivity)).
Defined.

End ClampCases.

(** ** The ring *)

Section Ring.

Lemma CIRCUMFERENCE_positive :
  exists c : Q, CIRCUMFERENCE = Fin c /\ (0 < c)%Q.
Proof. eexists. split; reflexivity. Qed.

Lemma ring_offset_range (p c : Q) :
  (0 <= p)%Q -> (p <= 1)%Q -> (0 < c)%Q ->
  (0 <= c + - (p * c))%Q /\ (c + - (p * c) <= c)%Q.
Proof.
  intros P0 P1 C.
  assert (A : (0 <= p * c)%Q)
    by (apply Qmult_le_0_compat; [exact P0 | now apply Qlt_le_weak]).
  assert (B : (p * c <= 1 * c)%Q)
    by (apply Qmult_le_compat_r; [exact P1 | now apply Qlt_le_weak]).
  split; lra.
Qed.

(** X2.  [render] writes the countdown text and the ring offset and
    nothing else: the state, the labels, the fields and the frame requests
    are as before.  With a finite elapsed time within [0, duration] the
    offset lies between 0 and the circumference; it is the whole
    circumference (empty ring) whenever the duration is not positive, and
    0 (full ring) when the elapsed time equals a positive finite
    duration. *)
Theorem X2_render_ring :
  forall w : World,
    let offset := strokeDashoffset (ui (render w)) in
    (state (render w) = state w
     /\ pending (render w) = pending w
     /\ lastHandle (render w) = lastHandle w
     /\ label (ui (render w)) = label (ui w)
     /\ btnToggle (ui (render w)) = btnToggle (ui w)
     /\ inputFocus (ui (render w)) = inputFocus (ui w)
     /\ inputShort (ui (render w)) = inputShort (ui w)
     /\ inputLong (ui (render w)) = inputLong (ui w)
     /\ inputCycles (ui (render w)) = inputCycles (ui w))
    /\ (forall e : Q,
          elapsed (state w) = Fin e -> elapsedInRange w ->
          le (of_Z 0) offset /\ le offset CIRCUMFERENCE)
    /\ (gtb (duration (state w)) (of_Z 0) = false ->
        equiv offset CIRCUMFERENCE)
    /\ (forall d : Q,
          duration (state w) = Fin d -> (0 < d)%Q ->
          equiv (elapsed (state w)) (Fin d) ->
          equiv offset (of_Z 0)).
Proof.
  intros w offset.
  destruct CIRCUMFERENCE_positive as (c & EC & PC).
  split; [now repeat split |].
  unfold offset, render. projections. rewrite EC.
  set (progress := if gtb _ _ then _ else _).
  assert (G0 : forall d, gtb (Fin d) (of_Z 0) = negb (Qle_bool d 0))
    by reflexivity.
  assert (NZ : forall d, (0 < d)%Q -> Qeq_bool d 0 = false).
  { intros d Dp. apply not_true_is_false. intros T.
    apply Qeq_bool_iff in T. rewrite T in Dp. revert Dp. apply Qlt_irrefl. }
  assert (Pos : forall d, Qle_bool d 0 = false -> (0 < d)%Q).
  { intros d D0. destruct (Qlt_le_dec 0 d) as [L | L]; [exact L |].
    apply Qle_bool_iff in L. congruence. }
  split; [| split].
  - intros e Ee [I0 I1]. rewrite Ee in *. unfold le in *.
    assert (P : exists p, progress = Fin p /\ (0 <= p)%Q /\ (p <= 1)%Q).
    { unfold progress. rewrite Ee.
      destruct (duration (state w)) as [| | d |] eqn:Ed; try discriminate.
      - rewrite G0. destruct (Qle_bool d 0) eqn:D0; cbn [negb].
        + exists 0%Q. repeat split; discriminate.
        + pose proof (Pos d D0) as Dp. exists (e / d)%Q.
          unfold div. rewrite (NZ d Dp). split; [reflexivity |].
          apply Qle_bool_iff in I0, I1. change (inject_Z 0) with 0%Q in I0.
          split.
          * apply Qle_shift_div_l; [exact Dp | lra].
          * apply Qle_shift_div_r; [exact Dp | lra].
      - exists 0%Q. repeat split; discriminate. }
    destruct P as (p & -> & P0 & P1).
    destruct (ring_offset_range p c P0 P1 PC) as [A B].
    split; apply Qle_bool_iff; assumption.
  - intros G. unfold progress. rewrite G. unfold equiv.
    apply Qeq_bool_iff. change (c + - (inject_Z 0 * c) == c)%Q.
    change (inject_Z 0) with 0%Q. ring.
  - intros d Ed Dp Eq. unfold progress. rewrite Ed in *. unfold equiv in *.
    destruct (elapsed (state w)) as [| | e |]; try discriminate.
    cbn [eqb] in Eq. apply Qeq_bool_iff in Eq.
    rewrite G0.
    assert (D0 : Qle_bool d 0 = false).
    { apply not_true_is_false. intros T. apply Qle_bool_iff in T.
      apply (Qlt_not_le _ _ Dp T). }
    rewrite D0. cbn [negb]. unfold div. rewrite (NZ d Dp).
    apply Qeq_bool_iff. change (c + - (e / d * c) == inject_Z 0)%Q.
    rewrite Eq. change (inject_Z 0) with 0%Q.
    field. intros T. rewrite T in Dp. revert Dp. apply Qlt_irrefl.
Qed.

(** Ten minutes into the 25: the ring is partly drawn. *)
Lemma X2_witness :
  let w := run page25 [ClickToggle 5000; Frame 5016 5016 5016;
                       Frame 605016 605016 605016] in
  le (of_Z 0) (strokeDashoffset (ui (render w)))
  /\ le (strokeDashoffset (ui (render w))) CIRCUMFERENCE.
Proof.
  exact (proj1 (proj2 (X2_render_ring
           (run page25 [ClickToggle 5000; Frame 5016 5016 5016;
                        Frame 605016 605016 605016])))
           (600000 # 1000) ltac:(reflexivity)
           ltac:(split; reflexivity)).
Defined.

End Ring.

(** ** Durations read at a phase change *)

Section PhaseChange.

Lemma truthy_or_else (x d : num) :
  truthy d = true -> truthy (or_else x d) = true.
Proof. intros H. unfold or_else. destruct (truthy x) eqn:T; assumption. Qed.

Lemma truthy_times_60 (m : num) :
  truthy m = true -> truthy (mul m (of_Z 60)) = true.
Proof.
  destruct m as [| | a |]; try discriminate; try reflexivity.
  simpl. intros H. apply negb_true_iff in H. apply negb_true_iff.
  apply not_true_is_false. intros T. apply Qeq_bool_iff in T.
  assert (E : (a == 0)%Q).
  { apply (Qmult_inj_r a 0 (inject_Z 60)); [discriminate |].
    rewrite T. ring. }
  apply Qeq_bool_iff in E. congruence.
Qed.

Lemma truthy_defined (x : num) : truthy x = true -> x <> NaN.
Proof. destruct x; discriminate. Qed.

Lemma minutesFor_truthy (p : Phase) (u : UI) : truthy (minutesFor p u) = true.
Proof. destruct p; now apply truthy_or_else. Qed.

Lemma Qfloor_negative (q : Q) : ~ (0 <= q)%Q -> Qfloor q < 0.
Proof.
  intros N. apply Qnot_le_lt in N.
  pose proof (Qfloor_le q) as L.
  assert (H : (inject_Z (Qfloor q) < inject_Z 0)%Q)
    by (now apply (Qle_lt_trans _ q)).
  now rewrite <- Zlt_Qlt in H.
Qed.

(** The countdown text [render] writes when nothing has elapsed. *)
Lemma formatMMSS_full (d : num) :
  d <> NaN ->
  formatMMSS (max (of_Z 0) (sub d (of_Z 0))) = formatMMSS d.
Proof.
  intros N. destruct d as [| | q |]; try congruence; try reflexivity.
  assert (E : (q + - inject_Z 0 == q)%Q)
    by (change (inject_Z 0) with 0%Q; ring).
  unfold sub, neg, add, of_Z, max, leb.
  destruct (Qle_bool (inject_Z 0) (q + - inject_Z 0)) eqn:L.
  - rewrite (formatMMSS_whole (q + - inject_Z 0)), (formatMMSS_whole q).
    now rewrite E.
  - rewrite (formatMMSS_whole q).
    assert (F : Qfloor q < 0).
    { apply Qfloor_negative. intros H. rewrite <- E in H.
      apply Qle_bool_iff in H.
      change (Qle_bool (inject_Z 0) (q + - inject_Z 0) = true) in H.
      congruence. }
    now rewrite Z.max_l by lia.
Qed.

Lemma render_fresh (w : World) :
  elapsed (state w) = of_Z 0 -> duration (state w) <> NaN ->
  timer (ui (render w)) = formatMMSS (duration (state w))
  /\ equiv (strokeDashoffset (ui (render w))) CIRCUMFERENCE.
Proof.
  intros E N. unfold render. projections. rewrite E. split.
  - now apply formatMMSS_full.
  - destruct CIRCUMFERENCE_positive as (c & -> & _).
    assert (P : exists p,
               (if gtb (duration (state w)) (of_Z 0)
                then div (of_Z 0) (duration (state w)) else of_Z 0) = Fin p
               /\ (p == 0)%Q).
    { destruct (gtb _ _) eqn:G; [| exists 0%Q; split; reflexivity].
      destruct (duration (state w)) as [| | d |]; try congruence.
      - exists 0%Q; split; reflexivity.
      - unfold div, of_Z. destruct (Qeq_bool d 0) eqn:D0.
        + exfalso. apply Qeq_bool_iff in D0.
          change (negb (Qle_bool d 0) = true) in G.
          apply negb_true_iff in G.
          assert (L : (d <= 0)%Q) by (rewrite D0; apply Qle_refl).
          apply Qle_bool_iff in L. congruence.
        + exists (inject_Z 0 / d)%Q. split; [reflexivity |].
          change (inject_Z 0) with 0%Q. field.
          intros T. apply Qeq_bool_iff in T. congruence.
      - exists 0%Q; split; reflexivity. }
    destruct P as (p & -> & P0). unfold equiv.
    apply Qeq_bool_iff. change (c + - (p * c) == c)%Q. rewrite P0. ring.
Qed.

(** X3.  Whatever the fields hold, [setPhase] leaves a duration that is a
    number other than zero (never 0, never NaN), nothing elapsed, the
    phase asked for and its name in the label; it does not touch the cycle
    count, the running flag or the fields.  Called directly it also shows
    the full duration and an empty ring; called from a transition it
    leaves the countdown text alone.  [nextPhase] likewise ends with a
    non-zero duration and the label naming the phase it entered, and the
    cycle length it divides by is never zero or NaN. *)
Theorem X3_setPhase_duration_nonzero :
  forall (p : Phase) (now : Q) (w : World),
    (forall fromTransition : bool,
       let w' := setPhase p fromTransition now w in
       truthy (duration (state w')) = true
       /\ duration (state w') = mul (minutesFor p (ui w)) (of_Z 60)
       /\ elapsed (state w') = of_Z 0
       /\ phase (state w') = p
       /\ label (ui w') = PHASES p
       /\ cycleCount (state w') = cycleCount (state w)
       /\ isRunning (state w') = isRunning (state w)
       /\ inputFocus (ui w') = inputFocus (ui w)
       /\ inputShort (ui w') = inputShort (ui w)
       /\ inputLong (ui w') = inputLong (ui w)
       /\ inputCycles (ui w') = inputCycles (ui w))
    /\ (let w' := setPhase p false now w in
        timer (ui w') = formatMMSS (duration (state w'))
        /\ equiv (strokeDashoffset (ui w')) CIRCUMFERENCE)
    /\ (let w' := setPhase p true now w in
        timer (ui w') = timer (ui w)
        /\ strokeDashoffset (ui w') = strokeDashoffset (ui w))
    /\ (let w' := nextPhase now w in
        truthy (duration (state w')) = true
        /\ label (ui w') = PHASES (phase (state w'))
        /\ timer (ui w') = timer (ui w))
    /\ truthy (cyclesBeforeLong (ui w)) = true.
Proof.
  intros p now w.
  assert (T : truthy (mul (minutesFor p (ui w)) (of_Z 60)) = true)
    by apply truthy_times_60, minutesFor_truthy.
  split; [| split; [| split; [| split]]].
  - intros b. unfold setPhase. destruct b; cbn [negb]; now repeat split.
  - unfold setPhase. cbn [negb].
    set (v := with_ui (set_timer _) _).
    assert (E : elapsed (state v) = of_Z 0) by reflexivity.
    assert (D : duration (state v) = mul (minutesFor p (ui w)) (of_Z 60))
      by reflexivity.
    destruct (render_fresh v E) as [A B].
    { rewrite D. now apply truthy_defined. }
    split; [exact A | exact B].
  - now split.
  - destruct (nextPhase_phase_count now w) as [U _].
    destruct (nextPhase_times now w) as (q & _ & D).
    cbv zeta. rewrite D, U. split; [| now split].
    apply truthy_times_60, minutesFor_truthy.
  - now apply truthy_or_else.
Qed.

End PhaseChange.

(** ** Ticks *)

Section Ticks.

Lemma loop_completing (timestamp now1 now2 : Q) (w : World) :
  isRunning (state w) = true ->
  geb (elapsed (state (measure timestamp w)))
      (duration (state (measure timestamp w))) = true ->
  loop timestamp now1 now2 w
  = requestAnimationFrame
      (render (completePhase now1 now2 (measure timestamp w))).
Proof. intros R G. unfold loop. rewrite R. cbn [negb]. now rewrite G. Qed.

Lemma loop_continuing (timestamp now1 now2 : Q) (w : World) :
  isRunning (state w) = true ->
  geb (elapsed (state (measure timestamp w)))
      (duration (state (measure timestamp w))) = false ->
  loop timestamp now1 now2 w
  = requestAnimationFrame (render (measure timestamp w)).
Proof. intros R G. unfold loop. rewrite R. cbn [negb]. now rewrite G. Qed.

Lemma measure_state (timestamp : Q) (w : World) :
  phase (state (measure timestamp w)) = phase (state w)
  /\ cycleCount (state (measure timestamp w)) = cycleCount (state w)
  /\ duration (state (measure timestamp w)) = duration (state w)
  /\ isRunning (state (measure timestamp w)) = isRunning (state w)
  /\ ui (measure timestamp w) = ui w.
Proof. unfold measure. destruct (unset _); now repeat split. Qed.

(** X4.  A tick that completes a phase leaves the page showing the phase
    it entered: the label is that phase's name, the countdown text is the
    full new duration, the ring is empty again, nothing has elapsed, and
    the new duration is a number other than zero.  One frame is
    requested. *)
Theorem X4_completing_tick_shows_new_phase :
  forall (w : World) (timestamp now1 now2 : Q),
    isRunning (state w) = true ->
    geb (elapsed (state (measure timestamp w)))
        (duration (state (measure timestamp w))) = true ->
    let w' := loop timestamp now1 now2 w in
    label (ui w') = PHASES (phase (state w'))
    /\ timer (ui w') = formatMMSS (duration (state w'))
    /\ equiv (strokeDashoffset (ui w')) CIRCUMFERENCE
    /\ elapsed (state w') = of_Z 0
    /\ truthy (duration (state w')) = true
    /\ phase (state w') <> phase (state w)
    /\ isRunning (state w') = true
    /\ pending w' = (pending w ++ [lastHandle w'])%list.
Proof.
  intros w t n1 n2 R G w'. unfold w'.
  rewrite (loop_completing t n1 n2 w R G).
  set (m := measure t w).
  destruct (measure_state t w) as (MP & _ & _ & MR & _). fold m in MP, MR.
  set (c := clampToDuration m).
  destruct (nextPhase_phase_count n1 (render c)) as [U PC].
  destruct (nextPhase_times n1 (render c)) as (p & E & D).
  destruct (nextPhase_schedule n1 (render c)) as (SR & _ & SP & SL).
  set (v := completePhase n1 n2 m).
  assert (Ev : elapsed (state v) = of_Z 0) by exact E.
  assert (Dv : duration (state v) = mul (minutesFor p (ui (render c))) (of_Z 60))
    by exact D.
  assert (Tv : truthy (duration (state v)) = true)
    by (rewrite Dv; apply truthy_times_60, minutesFor_truthy).
  destruct (render_fresh v Ev (truthy_defined _ Tv)) as [A B].
  unfold requestAnimationFrame. projections.
  change (state (render v)) with (state v).
  change (label (ui (render v))) with (label (ui v)).
  change (pending (render v)) with (pending v).
  change (lastHandle (render v)) with (lastHandle v).
  repeat match goal with |- _ /\ _ => split end;
    try assumption; try reflexivity.
  - unfold v, completePhase. projections. fold c. now rewrite U.
  - unfold v, completePhase. projections. fold c.
    change (phase (state (render c))) with (phase (state m)) in PC.
    rewrite MP in PC. intros Q.
    destruct (phase (state w)); destruct PC as [_ PC]; rewrite Q in PC;
      try discriminate.
    destruct (eqb _ _); discriminate.
  - unfold v, completePhase. projections. fold c. rewrite SR.
    change (isRunning (state m) = true). now rewrite MR.
  - unfold v, completePhase. projections. fold c. rewrite SP, SL.
    unfold c, m, measure. destruct (unset _); reflexivity.
Qed.

(** A minute in the field, the frame at 61 s: the short break begins. *)
Lemma X4_witness :
  let w := run (mkUI (of_Z 0) "" "" "" "1" "1" "5" "4")
             [ClickToggle 0; Frame 16 16 16] in
  let w' := loop 61016 61017 61018 w in
  label (ui w') = "SHORT BREAK" /\ timer (ui w') = "01:00".
Proof.
  pose proof (X4_completing_tick_shows_new_phase
                (run (mkUI (of_Z 0) "" "" "" "1" "1" "5" "4")
                   [ClickToggle 0; Frame 16 16 16])
                61016 61017 61018 ltac:(reflexivity) ltac:(reflexivity))
    as H.
  exact (conj (proj1 H) (proj1 (proj2 H))).
Defined.

(** X14.  A NaN duration is never reached: while the timer runs with it,
    every tick leaves the phase, the cycle count and the duration as they
    are, shows "NaN:NaN", and requests the next frame. *)
Theorem X14_NaN_duration_never_completes :
  forall (w : World) (timestamp now1 now2 : Q),
    isRunning (state w) = true ->
    duration (state w) = NaN ->
    let w' := loop timestamp now1 now2 w in
    phase (state w') = phase (state w)
    /\ cycleCount (state w') = cycleCount (state w)
    /\ duration (state w') = NaN
    /\ isRunning (state w') = true
    /\ timer (ui w') = "NaN:NaN"
    /\ label (ui w') = label (ui w).
Proof.
  intros w t n1 n2 R D w'.
  destruct (measure_state t w) as (MP & MC & MD & MR & MU).
  assert (G : geb (elapsed (state (measure t w)))
                  (duration (state (measure t w))) = false)
    by (rewrite MD, D; reflexivity).
  unfold w'. rewrite (loop_continuing t n1 n2 w R G).
  unfold requestAnimationFrame, render. projections.
  rewrite MP, MC, MD, MR, MU, D. now repeat split.
Qed.

(** "abc" in the focus field, reset, start, and a frame an hour later. *)
Lemma X14_witness :
  let w := run page25 [Edit Focus "abc"; ClickToggle 0; Frame 16 16 16] in
  phase (state (loop 3600016 0 0 w)) = FOCUS
  /\ timer (ui (loop 3600016 0 0 w)) = "NaN:NaN".
Proof.
  pose proof (X14_NaN_duration_never_completes
                (run page25 [Edit Focus "abc"; ClickToggle 0;
                             Frame 16 16 16])
                3600016 0 0 ltac:(reflexivity) ltac:(reflexivity)) as H.
  exact (conj (proj1 H) (proj1 (proj2 (proj2 (proj2 (proj2 H)))))).
Defined.

End Ticks.

(** ** Time between ticks *)

Section Monotone.

Lemma measure_times (timestamp : Q) (w : World) :
  startTime (state (measure timestamp w))
  = (if unset (startTime (state w)) then Some (Fin timestamp)
     else startTime (state w))
  /\ elapsed (state (measure timestamp w))
     = div (sub (Fin timestamp)
              (if unset (startTime (state w)) then Fin timestamp
               else timeValue (startTime (state w))))
         (of_Z 1000).
Proof. unfold measure. destruct (unset _); now split. Qed.

Lemma elapsed_from (t x : Q) :
  div (sub (Fin t) (Fin x)) (of_Z 1000) = Fin ((t + - x) / inject_Z 1000).
Proof. reflexivity. Qed.

Lemma Qle_div_1000 (a b : Q) :
  (a <= b)%Q -> (a / inject_Z 1000 <= b / inject_Z 1000)%Q.
Proof.
  intros H. unfold Qdiv. apply Qmult_le_compat_r; [exact H | discriminate].
Qed.

(** X5.  Between two ticks of a running timer that complete no phase, the
    second with a timestamp not before the first, the elapsed time does
    not go down; the phase, the cycle count, the duration and the
    reference point adopted by the first tick stay, and the countdown
    text is [formatMMSS] of what remains. *)
Theorem X5_elapsed_monotone :
  forall (w : World) (t1 t2 a1 a2 b1 b2 : Q),
    isRunning (state w) = true ->
    (t1 <= t2)%Q ->
    geb (elapsed (state (measure t1 w)))
        (duration (state (measure t1 w))) = false ->
    let w1 := loop t1 a1 a2 w in
    geb (elapsed (state (measure t2 w1)))
        (duration (state (measure t2 w1))) = false ->
    let w2 := loop t2 b1 b2 w1 in
    le (elapsed (state w1)) (elapsed (state w2))
    /\ phase (state w2) = phase (state w)
    /\ cycleCount (state w2) = cycleCount (state w)
    /\ duration (state w2) = duration (state w)
    /\ isRunning (state w2) = true
    /\ timer (ui w2)
       = formatMMSS
           (max (of_Z 0) (sub (duration (state w2)) (elapsed (state w2)))).
Proof.
  intros w t1 t2 a1 a2 b1 b2 R T G1 w1 G2 w2.
  assert (E1 : w1 = requestAnimationFrame (render (measure t1 w)))
    by (now apply loop_continuing).
  assert (R1 : isRunning (state w1) = true).
  { rewrite E1. destruct (measure_state t1 w) as (_ & _ & _ & MR & _).
    exact (eq_trans MR R). }
  assert (E2 : w2 = requestAnimationFrame (render (measure t2 w1)))
    by (now apply loop_continuing).
  destruct (measure_state t1 w) as (P1 & C1 & D1 & _ & _).
  destruct (measure_state t2 w1) as (P2 & C2 & D2 & MR2 & _).
  destruct (measure_times t1 w) as [S1 L1].
  destruct (measure_times t2 w1) as [S2 L2].
  assert (St : startTime (state w1) = startTime (state (measure t1 w)))
    by (now rewrite E1).
  assert (El : elapsed (state w1) = elapsed (state (measure t1 w)))
    by (now rewrite E1).
  assert (Ph : phase (state w1) = phase (state w)
               /\ cycleCount (state w1) = cycleCount (state w)
               /\ duration (state w1) = duration (state w))
    by (rewrite E1; repeat split; assumption).
  destruct Ph as (Ph & Cy & Du).
  rewrite E2. unfold requestAnimationFrame, render. projections.
  rewrite P2, C2, D2, MR2, Ph, Cy, Du.
  split; [| now repeat split].
  rewrite L2, El, L1, St, S1.
  unfold le.
  destruct (unset (startTime (state w))) eqn:U0.
  - cbn [unset truthy timeValue]. rewrite negb_involutive.
    destruct (Qeq_bool t1 0); rewrite !elapsed_from; cbn [leb];
      apply Qle_bool_iff, Qle_div_1000; lra.
  - rewrite U0.
    destruct (startTime (state w)) as [[| | x |] |]; try discriminate;
      try reflexivity.
    cbn [timeValue]. rewrite !elapsed_from. cbn [leb].
    apply Qle_bool_iff, Qle_div_1000. lra.
Qed.

(** Frames at 1 s and at 2 s of a running 25 minutes. *)
Lemma X5_witness :
  let w := run page25 [ClickToggle 0; Frame 16 16 16] in
  le (elapsed (state (loop 1016 0 0 w)))
     (elapsed (state (loop 2016 0 0 (loop 1016 0 0 w)))).
Proof.
  exact (proj1 (X5_elapsed_monotone
           (run page25 [ClickToggle 0; Frame 16 16 16])
           1016 2016 0 0 0 0 ltac:(reflexivity) ltac:(discriminate)
           ltac:(reflexivity) ltac:(reflexivity))).
Defined.

End Monotone.

(** ** Start, resume and toggle *)

Section StartResume.

Lemma start_running (now : Q) (w : World) :
  isRunning (state w) = true -> start now w = w.
Proof. intros R. unfold start. now rewrite R. Qed.

(** [start] when stopped, in one piece. *)
Lemma start_eq (now : Q) (w : World) :
  isRunning (state w) = false ->
  start now w
  = requestAnimationFrame
      (with_ui (set_btnToggle "Pause")
         (with_state (set_isRunning true)
            (if unset (startTime (state w)) then
               if eqb (elapsed (state w)) (of_Z 0)
                  && eqb (duration (state w)) (of_Z 0)
               then setPhase FOCUS false now w
               else w
             else
               with_state
                 (set_startTime
                    (Some (sub (Fin now)
                             (mul (elapsed (state w)) (of_Z 1000)))))
                 w))).
Proof. intros R. unfold start. now rewrite R. Qed.

(** What the last three steps of [start] leave as they are. *)
Lemma started_fields (v : World) :
  startTime
    (state (requestAnimationFrame
              (with_ui (set_btnToggle "Pause")
                 (with_state (set_isRunning true) v))))
  = startTime (state v)
  /\ duration
       (state (requestAnimationFrame
                 (with_ui (set_btnToggle "Pause")
                    (with_state (set_isRunning true) v))))
     = duration (state v)
  /\ elapsed
       (state (requestAnimationFrame
                 (with_ui (set_btnToggle "Pause")
                    (with_state (set_isRunning true) v))))
     = elapsed (state v)
  /\ phase
       (state (requestAnimationFrame
                 (with_ui (set_btnToggle "Pause")
                    (with_state (set_isRunning true) v))))
     = phase (state v)
  /\ cycleCount
       (state (requestAnimationFrame
                 (with_ui (set_btnToggle "Pause")
                    (with_state (set_isRunning true) v))))
     = cycleCount (state v)
  /\ label
       (ui (requestAnimationFrame
              (with_ui (set_btnToggle "Pause")
                 (with_state (set_isRunning true) v))))
     = label (ui v)
  /\ timer
       (ui (requestAnimationFrame
              (with_ui (set_btnToggle "Pause")
                 (with_state (set_isRunning true) v))))
     = timer (ui v).
Proof. now repeat split. Qed.

Lemma started_page (v : World) :
  btnToggle
    (ui (requestAnimationFrame
           (with_ui (set_btnToggle "Pause")
              (with_state (set_isRunning true) v))))
  = "Pause"
  /\ cycleCount
       (state (requestAnimationFrame
                 (with_ui (set_btnToggle "Pause")
                    (with_state (set_isRunning true) v))))
     = cycleCount (state v)
  /\ inputFocus
       (ui (requestAnimationFrame
              (with_ui (set_btnToggle "Pause")
                 (with_state (set_isRunning true) v))))
     = inputFocus (ui v)
  /\ inputShort
       (ui (requestAnimationFrame
              (with_ui (set_btnToggle "Pause")
                 (with_state (set_isRunning true) v))))
     = inputShort (ui v)
  /\ inputLong
       (ui (requestAnimationFrame
              (with_ui (set_btnToggle "Pause")
                 (with_state (set_isRunning true) v))))
     = inputLong (ui v)
  /\ inputCycles
       (ui (requestAnimationFrame
              (with_ui (set_btnToggle "Pause")
                 (with_state (set_isRunning true) v))))
     = inputCycles (ui v).
Proof. now repeat split. Qed.

Lemma paused_page (w : World) :
  isRunning (state w) = true ->
  btnToggle (ui (pause w)) = "Resume"
  /\ cycleCount (state (pause w)) = cycleCount (state w)
  /\ inputFocus (ui (pause w)) = inputFocus (ui w)
  /\ inputShort (ui (pause w)) = inputShort (ui w)
  /\ inputLong (ui (pause w)) = inputLong (ui w)
  /\ inputCycles (ui (pause w)) = inputCycles (ui w).
Proof.
  intros R. unfold pause. rewrite R. cbn [negb].
  unfold cancelAnimationFrame. projections.
  destruct (animationFrame (state w)); now repeat split.
Qed.

Lemma setPhase_keeps (p : Phase) (b : bool) (now : Q) (w : World) :
  cycleCount (state (setPhase p b now w)) = cycleCount (state w)
  /\ inputFocus (ui (setPhase p b now w)) = inputFocus (ui w)
  /\ inputShort (ui (setPhase p b now w)) = inputShort (ui w)
  /\ inputLong (ui (setPhase p b now w)) = inputLong (ui w)
  /\ inputCycles (ui (setPhase p b now w)) = inputCycles (ui w).
Proof. unfold setPhase. destruct b; now repeat split. Qed.

Lemma setPhase_label (p : Phase) (b : bool) (now : Q) (w : World) :
  label (ui (setPhase p b now w)) = PHASES p.
Proof. unfold setPhase. destruct b; reflexivity. Qed.

Lemma setPhase_shows_duration (p : Phase) (now : Q) (w : World) :
  timer (ui (setPhase p false now w))
  = formatMMSS (mul (minutesFor p (ui w)) (of_Z 60)).
Proof.
  unfold setPhase. cbn [negb].
  set (u := with_ui (set_timer _) _).
  assert (Eu : elapsed (state u) = of_Z 0) by reflexivity.
  assert (Du : duration (state u) = mul (minutesFor p (ui w)) (of_Z 60))
    by reflexivity.
  destruct (render_fresh u Eu) as [A _].
  { rewrite Du. apply truthy_defined, truthy_times_60, minutesFor_truthy. }
  exact (eq_trans A (f_equal formatMMSS Du)).
Qed.

(** X6.  [start] does nothing to a running timer, so a second [start] in
    a row changes nothing.  On a stopped timer it sets the running flag,
    makes the control read "Pause" and requests exactly one frame, whose
    handle it keeps; it leaves the cycle count and the four fields alone,
    and unless the timer is blank (no reference point, zero elapsed, zero
    duration) also the phase, the duration, the elapsed time, the label
    and the countdown text. *)
Theorem X6_start_effect :
  forall (now : Q) (w : World),
    (isRunning (state w) = true -> start now w = w)
    /\ (forall now' : Q, start now' (start now w) = start now w)
    /\ (isRunning (state w) = false ->
        let w' := start now w in
        isRunning (state w') = true
        /\ btnToggle (ui w') = "Pause"
        /\ animationFrame (state w') = Some (lastHandle w')
        /\ pending w' = (pending w ++ [lastHandle w'])%list
        /\ lastHandle w' = S (lastHandle w)
        /\ cycleCount (state w') = cycleCount (state w)
        /\ inputFocus (ui w') = inputFocus (ui w)
        /\ inputShort (ui w') = inputShort (ui w)
        /\ inputLong (ui w') = inputLong (ui w)
        /\ inputCycles (ui w') = inputCycles (ui w)
        /\ (unset (startTime (state w))
            && eqb (elapsed (state w)) (of_Z 0)
            && eqb (duration (state w)) (of_Z 0) = false ->
            phase (state w') = phase (state w)
            /\ duration (state w') = duration (state w)
            /\ elapsed (state w') = elapsed (state w)
            /\ label (ui w') = label (ui w)
            /\ timer (ui w') = timer (ui w))).
Proof.
  intros now w.
  assert (Stopped : isRunning (state w) = false ->
            isRunning (state (start now w)) = true).
  { intros R. now destruct (start_stopped now w R). }
  split; [apply start_running |]. split.
  - intros now'. apply start_running.
    destruct (isRunning (state w)) eqn:R; [| now apply Stopped].
    now rewrite (start_running now w R).
  - intros R w'. unfold w'. rewrite (start_eq now w R).
    unfold requestAnimationFrame. projections.
    destruct (unset (startTime (state w))) eqn:U;
      [destruct (eqb (elapsed (state w)) (of_Z 0)
                 && eqb (duration (state w)) (of_Z 0)) eqn:Z |];
      cbn [andb]; repeat match goal with |- _ /\ _ => split end;
      try reflexivity; try discriminate.
    all: try (destruct (setPhase_schedule FOCUS false now w)
                as (_ & _ & A & B); now rewrite ?A, ?B).
    all: try (intros _; now repeat split).
    all: intros Z'; rewrite Z in Z'; try discriminate.
    all: now repeat split.
Qed.

(** On the loaded page the first start keeps the 25 minutes. *)
Lemma X6_witness :
  isRunning (state (start 5000 (load page25))) = true
  /\ btnToggle (ui (start 5000 (load page25))) = "Pause".
Proof.
  pose proof (proj2 (proj2 (X6_start_effect 5000 (load page25)))
                ltac:(reflexivity)) as H.
  exact (conj (proj1 H) (proj1 (proj2 H))).
Defined.

End StartResume.

Section Resume.

Lemma within_same (d a b : Q) :
  (0 <= d)%Q -> (a == b)%Q -> within d (Fin a) (Fin b) = true.
Proof.
  intros Hd Hab. unfold within. cbn [sub neg add leb].
  apply andb_true_intro.
  split; apply Qle_bool_iff; rewrite Hab, Qplus_opp_r; exact Hd.
Qed.

(** X7.  Pausing and resuming keeps the time already consumed.  When a
    stopped timer that has a reference point and an elapsed time [e] is
    started at clock reading [now], the state keeps [e], the phase, the
    cycle count and the duration; the reference point becomes
    [now - e * 1000], whatever it was before, and the next frame, stamped
    [t], reads [(t - (now - e * 1000)) / 1000] seconds, which is
    [e + (t - now) / 1000] to within a millisecond: the pause itself does
    not count.  The clock readings are taken between 0 and [2^40]
    milliseconds, where the rounding of these four operations on
    JavaScript numbers stays far below a millisecond, and the new
    reference point at least one millisecond after the clock's origin:
    zero is the one value the script takes for "no reference point". *)
Theorem X7_resume_keeps_elapsed :
  forall (w : World) (now t e : Q),
    isRunning (state w) = false ->
    unset (startTime (state w)) = false ->
    elapsed (state w) = Fin e ->
    (0 <= e)%Q ->
    (1 <= now - e * 1000)%Q ->
    (now <= inject_Z (2 ^ 40))%Q ->
    (0 <= t)%Q -> (t <= inject_Z (2 ^ 40))%Q ->
    let w' := start now w in
    elapsed (state w') = Fin e
    /\ phase (state w') = phase (state w)
    /\ cycleCount (state w') = cycleCount (state w)
    /\ duration (state w') = duration (state w)
    /\ startTime (state w')
       = Some (sub (Fin now) (mul (Fin e) (of_Z 1000)))
    /\ elapsed (state (measure t w'))
       = div (sub (Fin t) (sub (Fin now) (mul (Fin e) (of_Z 1000))))
           (of_Z 1000)
    /\ within (1 # 1000) (elapsed (state (measure t w')))
         (Fin (e + (t - now) / 1000)) = true.
Proof.
  intros w now t e R U E E0 NZ _ _ _ w'. unfold w'.
  assert (F : Qeq_bool (now + - (e * inject_Z 1000)) 0 = false).
  { apply not_true_is_false. intros T. apply Qeq_bool_iff in T.
    change (inject_Z 1000) with 1000%Q in T. lra. }
  assert (ST : startTime (state (start now w))
               = Some (Fin (now + - (e * inject_Z 1000)))).
  { rewrite (start_eq now w R), U, E. reflexivity. }
  assert (M : elapsed (state (measure t (start now w)))
              = Fin ((t + - (now + - (e * inject_Z 1000)))
                     / inject_Z 1000)).
  { destruct (measure_times t (start now w)) as [_ L].
    rewrite L, ST. cbn [unset truthy]. rewrite F. cbn [negb timeValue].
    apply elapsed_from. }
  split; [| split; [| split; [| split; [| split; [| split]]]]].
  - rewrite (start_eq now w R), U. exact E.
  - rewrite (start_eq now w R), U. reflexivity.
  - rewrite (start_eq now w R), U. reflexivity.
  - rewrite (start_eq now w R), U. reflexivity.
  - exact ST.
  - exact M.
  - rewrite M. apply within_same; [discriminate |].
    change (inject_Z 1000) with 1000%Q. field.
Qed.

(** Paused at 600 s, resumed at clock 900000: the frame at 901000 reads
    601 s. *)
Lemma X7_witness :
  within (1 # 1000)
    (elapsed
       (state
          (measure 901000
             (start 900000
                (run page25 [ClickToggle 5000; Frame 5016 5016 5016;
                             Frame 605016 605016 605016;
                             ClickToggle 605020])))))
    (of_Z 601) = true.
Proof.
  exact (proj2 (proj2 (proj2 (proj2 (proj2 (proj2
           (X7_resume_keeps_elapsed
              (run page25 [ClickToggle 5000; Frame 5016 5016 5016;
                           Frame 605016 605016 605016;
                           ClickToggle 605020])
              900000 901000 (600000 # 1000)
              ltac:(reflexivity) ltac:(reflexivity) ltac:(reflexivity)
              ltac:(discriminate) ltac:(discriminate) ltac:(discriminate)
              ltac:(discriminate) ltac:(discriminate)))))))).
Defined.

(** X13.  After [reset()] the timer has no reference point, so [start]
    does not use the clock: when the duration left by [reset] is not
    zero, [start] keeps it, with the label still "READY", and the first
    frame adopts its own timestamp, measuring zero seconds whatever that
    timestamp is.  When [reset] left a zero duration (a focus field
    reading as 0), [start] calls [setPhase(FOCUS)]: the duration becomes
    the focus minutes with the default of 25, a number other than zero,
    and the label reads "FOCUS". *)
Theorem X13_first_start_after_reset :
  forall (w : World) (now t : Q),
    let r := reset w in
    let w' := start now r in
    (eqb (duration (state r)) (of_Z 0) = false ->
     startTime (state w') = None
     /\ duration (state w') = duration (state r)
     /\ label (ui w') = "READY"
     /\ startTime (state (measure t w')) = Some (Fin t)
     /\ equiv (elapsed (state (measure t w'))) (of_Z 0))
    /\ (eqb (duration (state r)) (of_Z 0) = true ->
        duration (state w') = mul (minutesFor FOCUS (ui w)) (of_Z 60)
        /\ truthy (duration (state w')) = true
        /\ label (ui w') = "FOCUS"
        /\ timer (ui w') = formatMMSS (duration (state w'))
        /\ startTime (state w') = Some (Fin now)).
Proof.
  intros w now t. cbv zeta.
  assert (R : isRunning (state (reset w)) = false) by (now rewrite reset_eq).
  assert (S0 : startTime (state (reset w)) = None) by (now rewrite reset_eq).
  assert (E0 : elapsed (state (reset w)) = of_Z 0) by (now rewrite reset_eq).
  assert (UI : minutesFor FOCUS (ui (reset w)) = minutesFor FOCUS (ui w))
    by (now rewrite reset_eq).
  assert (L0 : label (ui (reset w)) = "READY") by (now rewrite reset_eq).
  revert R S0 E0 UI L0. generalize (reset w). intros r R S0 E0 UI L0.
  assert (W : start now r
              = requestAnimationFrame
                  (with_ui (set_btnToggle "Pause")
                     (with_state (set_isRunning true)
                        (if eqb (duration (state r)) (of_Z 0)
                         then setPhase FOCUS false now r else r)))).
  { rewrite (start_eq now r R), S0, E0. reflexivity. }
  split; intros Hz; rewrite Hz in W; rewrite W; clear W.
  - destruct (started_fields r) as (A1 & A2 & _ & _ & _ & A6 & _).
    destruct (measure_times t
                (requestAnimationFrame
                   (with_ui (set_btnToggle "Pause")
                      (with_state (set_isRunning true) r)))) as [MS ME].
    rewrite A1, S0 in MS, ME. cbn [unset] in MS, ME.
    rewrite A1, A2, A6, MS, ME.
    split; [exact S0 |]. split; [reflexivity |].
    split; [exact L0 |]. split; [reflexivity |].
    rewrite elapsed_from. unfold equiv. cbn [eqb of_Z].
    apply Qeq_bool_iff. change (inject_Z 1000) with 1000%Q.
    change (inject_Z 0) with 0%Q. field.
  - destruct (started_fields (setPhase FOCUS false now r))
      as (A1 & A2 & _ & _ & _ & A6 & A7).
    destruct (setPhase_times FOCUS false now r) as (_ & D & S').
    rewrite A1, A2, A6, A7, D, S', UI, (setPhase_label FOCUS false now r).
    split; [reflexivity |].
    split; [apply truthy_times_60, minutesFor_truthy |].
    split; [reflexivity |]. split; [| reflexivity].
    rewrite <- UI. apply setPhase_shows_duration.
Qed.

(** A stopped page with 0 in the focus field, then start. *)
Lemma X13_witness :
  let w := setValue Focus "0" (load page25) in
  duration (state (start 5000 (reset w))) = of_Z 1500
  /\ label (ui (start 5000 (reset w))) = "FOCUS".
Proof.
  pose proof (proj2 (X13_first_start_after_reset
                (setValue Focus "0" (load page25)) 5000 0)
                ltac:(reflexivity)) as H.
  exact (conj (proj1 H) (proj1 (proj2 (proj2 H)))).
Defined.

(** X8.  [toggle] flips the running flag: a running timer is paused and
    the control reads "Resume"; a stopped one is started and the control
    reads "Pause".  Either way the phase-independent data (cycle count,
    fields) stay, and two toggles from a running timer leave it running
    with the same phase, cycle count and duration. *)
Theorem X8_toggle_flips :
  forall (now : Q) (w : World),
    let w' := toggle now w in
    isRunning (state w') = negb (isRunning (state w))
    /\ btnToggle (ui w')
       = (if isRunning (state w) then "Resume" else "Pause")
    /\ cycleCount (state w') = cycleCount (state w)
    /\ inputFocus (ui w') = inputFocus (ui w)
    /\ inputShort (ui w') = inputShort (ui w)
    /\ inputLong (ui w') = inputLong (ui w)
    /\ inputCycles (ui w') = inputCycles (ui w)
    /\ (forall now' : Q,
          isRunning (state (toggle now' w')) = isRunning (state w)).
Proof.
  intros now w w'.
  assert (F : forall n v, isRunning (state (toggle n v))
                          = negb (isRunning (state v))).
  { intros n v. unfold toggle. destruct (isRunning (state v)) eqn:R.
    - apply pause_not_running.
    - now destruct (start_stopped n v R). }
  split; [apply F |].
  assert (K : btnToggle (ui w')
              = (if isRunning (state w) then "Resume" else "Pause")
              /\ cycleCount (state w') = cycleCount (state w)
              /\ inputFocus (ui w') = inputFocus (ui w)
              /\ inputShort (ui w') = inputShort (ui w)
              /\ inputLong (ui w') = inputLong (ui w)
              /\ inputCycles (ui w') = inputCycles (ui w)).
  { unfold w', toggle. destruct (isRunning (state w)) eqn:R.
    - apply (paused_page w R).
    - rewrite (start_eq now w R).
      set (x := if unset (startTime (state w)) then _ else _).
      assert (X : cycleCount (state x) = cycleCount (state w)
                  /\ inputFocus (ui x) = inputFocus (ui w)
                  /\ inputShort (ui x) = inputShort (ui w)
                  /\ inputLong (ui x) = inputLong (ui w)
                  /\ inputCycles (ui x) = inputCycles (ui w)).
      { unfold x. destruct (unset _); [destruct (_ && _) |];
          [apply setPhase_keeps | now repeat split ..]. }
      destruct X as (X1 & X2 & X3 & X4 & X5).
      destruct (started_page x) as (B & C1 & C2 & C3 & C4 & C5).
      rewrite B, C1, C2, C3, C4, C5, X1, X2, X3, X4, X5.
      now repeat split. }
  destruct K as (K1 & K2 & K3 & K4 & K5 & K6).
  repeat (split; [assumption |]).
  intros n. rewrite F. unfold w'. rewrite F. apply negb_involutive.
Qed.

End Resume.

(** ** Reset, edits and page load *)

Section ResetAgain.

Lemma filter_twice (f : nat -> bool) (l : list nat) :
  filter f (filter f l) = filter f l.
Proof.
  induction l as [| a l IH]; [reflexivity |]. simpl.
  destruct (f a) eqn:E; simpl; rewrite ?E, IH; reflexivity.
Qed.

Lemma reset_twice (w : World) : reset (reset w) = reset w.
Proof.
  rewrite (reset_eq (reset w)). rewrite !(reset_eq w). projections.
  unfold resetMinutes. projections. f_equal.
  destruct w as [[r p c t d e h] u q l]. unfold cancelAnimationFrame.
  projections. destruct h; projections; [apply filter_twice | reflexivity].
Qed.

Lemma reset_pause (w : World) : reset (pause w) = reset w.
Proof.
  unfold pause. destruct (isRunning (state w)); [| reflexivity]. cbn [negb].
  rewrite reset_eq. rewrite (reset_eq w).
  destruct w as [[r p c t d e h] u q l]. unfold cancelAnimationFrame.
  projections. destruct h; projections; unfold resetMinutes; projections;
    f_equal. apply filter_twice.
Qed.

(** X9.  [reset] is idempotent, and it absorbs a preceding [pause]:
    resetting twice, or pausing and then resetting, gives the same world
    as resetting once.  After it no frame request made for
    [state.animationFrame] is pending. *)
Theorem X9_reset_idempotent :
  forall w : World,
    reset (reset w) = reset w
    /\ reset (pause w) = reset w
    /\ (forall h : nat,
          animationFrame (state w) = Some h -> ~ In h (pending (reset w))).
Proof.
  intros w. split; [apply reset_twice |]. split; [apply reset_pause |].
  intros h A. rewrite reset_eq. projections.
  unfold cancelAnimationFrame. rewrite A. projections.
  intros I. apply filter_In in I. destruct I as [_ I].
  now rewrite Nat.eqb_refl in I.
Qed.

(** The frame requested by the running page is gone after reset. *)
Lemma X9_witness :
  ~ In 1%nat (pending (reset (run page25 [ClickToggle 5000]))).
Proof.
  exact (proj2 (proj2 (X9_reset_idempotent (run page25 [ClickToggle 5000])))
           1%nat ltac:(reflexivity)).
Defined.

End ResetAgain.

Section Edits.

Lemma resetUnlessRunning_running (w : World) :
  isRunning (state w) = true -> resetUnlessRunning w = w.
Proof. intros R. unfold resetUnlessRunning. now rewrite R. Qed.

Lemma resetUnlessRunning_stopped (w : World) :
  isRunning (state w) = false -> resetUnlessRunning w = reset w.
Proof. intros R. unfold resetUnlessRunning. now rewrite R. Qed.

(** X10.  Committing a field while the timer runs changes fields only:
    the state, the label, the countdown text, the control, the ring and
    the frame requests are as before, so the running phase keeps its
    duration.  Committing a duration field while the timer is stopped
    ends in [reset]: FOCUS at cycle 0 with nothing elapsed, the label
    "READY" and the control "Start", also from the middle of a break;
    the duration is read from the focus field as the edit left it.
    Committing the cycles field never touches the state. *)
Theorem X10_edit_running_or_stopped :
  forall (f : Field) (text : string) (w : World),
    let w' := edit f text w in
    fieldValue f (ui w') = text
    /\ (isRunning (state w) = true ->
        state w' = state w
        /\ pending w' = pending w
        /\ label (ui w') = label (ui w)
        /\ timer (ui w') = timer (ui w)
        /\ btnToggle (ui w') = btnToggle (ui w)
        /\ strokeDashoffset (ui w') = strokeDashoffset (ui w))
    /\ (isRunning (state w) = false -> f <> Cycles ->
        isRunning (state w') = false
        /\ phase (state w') = FOCUS
        /\ cycleCount (state w') = 0
        /\ elapsed (state w') = of_Z 0
        /\ startTime (state w') = None
        /\ duration (state w') = mul (resetMinutes (ui w')) (of_Z 60)
        /\ label (ui w') = "READY"
        /\ btnToggle (ui w') = "Start"
        /\ timer (ui w') = formatMMSS (duration (state w')))
    /\ (f = Cycles -> state w' = state w /\ pending w' = pending w).
Proof.
  intros f text w w'.
  assert (V : fieldValue f (ui w') = text).
  { unfold w', edit. destruct f; cbn [onChange setValue fieldValue];
      [unfold onFocusChange | unfold onShortChange | unfold onLongChange |
       reflexivity];
      match goal with
      | |- context [resetUnlessRunning ?v] =>
          destruct (resetUnlessRunning_ui v) as (A & B & C & _);
          rewrite ?A, ?B, ?C
      end; reflexivity. }
  split; [exact V |]. split; [| split].
  - intros R. unfold w', edit.
    destruct f; cbn [onChange setValue];
      [unfold onFocusChange | unfold onShortChange | unfold onLongChange |
       now repeat split];
      rewrite resetUnlessRunning_running by exact R; now repeat split.
  - intros R N. unfold w', edit.
    destruct f; cbn [onChange setValue];
      [unfold onFocusChange | unfold onShortChange | unfold onLongChange |
       congruence];
      rewrite resetUnlessRunning_stopped by exact R;
      rewrite reset_eq; now repeat split.
  - intros ->. now split.
Qed.

(** A 50 committed in the focus field during a running 25 minutes. *)
Lemma X10_witness :
  let w := run page25 [ClickToggle 5000; Frame 5016 5016 5016] in
  duration (state (edit Focus "50" w)) = of_Z 1500
  /\ inputShort (ui (edit Focus "50" w)) = "10".
Proof.
  split.
  - exact (f_equal duration
             (proj1 (proj1 (proj2 (X10_edit_running_or_stopped Focus "50"
                (run page25 [ClickToggle 5000; Frame 5016 5016 5016])))
                ltac:(reflexivity)))).
  - reflexivity.
Defined.

End Edits.

Section Reachable.

Lemma loop_cycleCount (timestamp now1 now2 : Q) (w : World) :
  cycleCount (state w) <= cycleCount (state (loop timestamp now1 now2 w))
  <= cycleCount (state w) + 1.
Proof.
  destruct (isRunning (state w)) eqn:R.
  - destruct (measure_state timestamp w) as (_ & MC & _).
    destruct (geb (elapsed (state (measure timestamp w)))
                  (duration (state (measure timestamp w)))) eqn:G.
    + rewrite (loop_completing timestamp now1 now2 w R G).
      set (c := render (clampToDuration (measure timestamp w))).
      assert (Cc : cycleCount (state c)
                   = cycleCount (state (measure timestamp w)))
        by reflexivity.
      destruct (nextPhase_phase_count now1 c) as [_ H].
      assert (E : cycleCount
                    (state (requestAnimationFrame
                              (render (completePhase now1 now2
                                         (measure timestamp w)))))
                  = cycleCount (state (nextPhase now1 c))) by reflexivity.
      rewrite E. destruct (phase (state c)); destruct H as [H _];
        rewrite H, Cc, MC; lia.
    + rewrite (loop_continuing timestamp now1 now2 w R G).
      assert (E : cycleCount
                    (state (requestAnimationFrame
                              (render (measure timestamp w))))
                  = cycleCount (state (measure timestamp w))) by reflexivity.
      rewrite E, MC. lia.
  - rewrite loop_stopped by exact R. lia.
Qed.

Lemma frame_cycleCount (timestamp now1 now2 : Q) (w : World) :
  cycleCount (state w) <= cycleCount (state (frame timestamp now1 now2 w)).
Proof.
  unfold frame.
  assert (G : forall (l : list nat) (v : World),
            cycleCount (state v)
            <= cycleCount
                 (state (fold_left
                           (fun w' (_ : nat) => loop timestamp now1 now2 w')
                           l v))).
  { induction l as [| a l IH]; intros v; simpl; [lia |].
    pose proof (loop_cycleCount timestamp now1 now2 v).
    specialize (IH (loop timestamp now1 now2 v)). lia. }
  apply (G (pending w) (mkWorld (state w) (ui w) [] (lastHandle w))).
Qed.

Lemma reset_cycleCount (w : World) : cycleCount (state (reset w)) = 0.
Proof. now rewrite reset_eq. Qed.

Lemma toggle_cycleCount (now : Q) (w : World) :
  cycleCount (state (toggle now w)) = cycleCount (state w).
Proof.
  unfold toggle. destruct (isRunning (state w)) eqn:R.
  - now destruct (paused_page w R) as (_ & A & _).
  - rewrite (start_eq now w R).
    set (x := if unset (startTime (state w)) then _ else _).
    destruct (started_page x) as (_ & C1 & _). rewrite C1.
    unfold x. destruct (unset _); [destruct (_ && _) |];
      [apply setPhase_keeps | reflexivity ..].
Qed.

Lemma step_cycleCount (w : World) (e : Event) :
  0 <= cycleCount (state w) -> 0 <= cycleCount (state (step w e)).
Proof.
  intros H. destruct e as [now | | onInput code now | f text | t n1 n2];
    cbn [step].
  - now rewrite toggle_cycleCount.
  - now rewrite reset_cycleCount.
  - unfold keydown. destruct onInput; [exact H |].
    destruct (String.eqb code "KeyR"); [now rewrite reset_cycleCount |].
    destruct (String.eqb code "Space"); [now rewrite toggle_cycleCount |].
    exact H.
  - unfold edit.
    assert (U : forall v, cycleCount (state v) = cycleCount (state w) ->
              0 <= cycleCount (state (resetUnlessRunning v))).
    { intros v E. unfold resetUnlessRunning.
      destruct (negb _); [now rewrite reset_cycleCount | now rewrite E]. }
    destruct f; cbn [onChange setValue];
      [apply U | apply U | apply U | exact H]; reflexivity.
  - pose proof (frame_cycleCount t n1 n2 w). lia.
Qed.

(** X11.  In every world the page can reach from its load, by clicks, key
    presses, committed fields and frames, the cycle count is not
    negative and at most one frame request is pending: exactly one, the
    one whose handle [state.animationFrame] holds, while the timer runs,
    and none while it is stopped.  No second loop is ever started. *)
Theorem X11_reachable_invariants :
  forall (page : UI) (events : list Event),
    let w := run page events in
    0 <= cycleCount (state w)
    /\ (List.length (pending w) <= 1)%nat
    /\ (isRunning (state w) = true ->
        exists h, animationFrame (state w) = Some h /\ pending w = [h])
    /\ (isRunning (state w) = false -> pending w = []).
Proof.
  intros page events w.
  assert (C : 0 <= cycleCount (state w)).
  { unfold w, run.
    assert (L : 0 <= cycleCount (state (load page)))
      by (unfold load; rewrite reset_cycleCount; lia).
    revert L. generalize (load page).
    induction events as [| e es IH]; intros v H; simpl; [exact H |].
    apply IH. now apply step_cycleCount. }
  pose proof (scheduled_run page events) as S. fold w in S.
  unfold scheduled in S.
  split; [exact C |].
  destruct (isRunning (state w)).
  - destruct S as (h & A & P). rewrite P.
    split; [simpl; lia |]. split; [| discriminate].
    intros _. now exists h.
  - rewrite S. split; [simpl; lia |]. split; [discriminate | reflexivity].
Qed.

(** Started once: one request, the one the state holds. *)
Lemma X11_witness :
  exists h : nat,
    animationFrame (state (run page25 [ClickToggle 5000])) = Some h
    /\ pending (run page25 [ClickToggle 5000]) = [h].
Proof.
  exact (proj1 (proj2 (proj2
           (X11_reachable_invariants page25 [ClickToggle 5000])))
           ltac:(reflexivity)).
Defined.

End Reachable.

Section Load.

(** X12.  Page load ends in the ready state whatever texts the page
    starts with: stopped in FOCUS at cycle 0 with no reference point, the
    duration read from the focus field, the short and long fields
    overwritten with the values derived from the focus field (from 25
    when it is empty, zero or not a number), the label "READY", the
    control "Start", the countdown showing the duration, the ring empty,
    and no frame requested. *)
Theorem X12_load_ready :
  forall page : UI,
    let f := or_else (Number (inputFocus page)) (of_Z 25) in
    let d := mul (resetMinutes page) (of_Z 60) in
    load page
    = mkWorld
        (mkState false FOCUS 0 None d (of_Z 0) None)
        (mkUI CIRCUMFERENCE "READY" (formatMMSS d) "Start"
           (inputFocus page)
           (ToString (shortFromFocus f))
           (ToString (longFromFocus f))
           (inputCycles page))
        [] 0.
Proof.
  intros page f d. unfold load, onFocusChange.
  set (v := with_ui (set_inputLong _) _).
  assert (R : isRunning (state v) = false) by reflexivity.
  rewrite (resetUnlessRunning_stopped v R), reset_twice, reset_eq.
  reflexivity.
Qed.

End Load.

(** ** Keys *)

Section Keys.

Lemma reset_fields (w : World) :
  inputFocus (ui (reset w)) = inputFocus (ui w)
  /\ inputShort (ui (reset w)) = inputShort (ui w)
  /\ inputLong (ui (reset w)) = inputLong (ui w)
  /\ inputCycles (ui (reset w)) = inputCycles (ui w).
Proof. rewrite reset_eq. now repeat split. Qed.

Lemma toggle_fields (now : Q) (w : World) :
  inputFocus (ui (toggle now w)) = inputFocus (ui w)
  /\ inputShort (ui (toggle now w)) = inputShort (ui w)
  /\ inputLong (ui (toggle now w)) = inputLong (ui w)
  /\ inputCycles (ui (toggle now w)) = inputCycles (ui w).
Proof.
  unfold toggle. destruct (isRunning (state w)) eqn:R.
  - now destruct (paused_page w R) as (_ & _ & A & B & C & D).
  - rewrite (start_eq now w R).
    set (x := if unset (startTime (state w)) then _ else _).
    destruct (started_page x) as (_ & _ & C2 & C3 & C4 & C5).
    rewrite C2, C3, C4, C5.
    unfold x. destruct (unset _); [destruct (_ && _) |];
      [apply setPhase_keeps | now repeat split ..].
Qed.

(** X15.  A key pressed while an INPUT element has the focus does nothing
    to the timer.  Elsewhere Space does what the toggle button does and R
    what the reset button does, and every other key does nothing.  No key
    ever changes the four fields. *)
Theorem X15_keydown :
  forall (code : string) (now : Q) (w : World),
    keydown true code now w = w
    /\ keydown false "Space" now w = toggle now w
    /\ keydown false "KeyR" now w = reset w
    /\ (code <> "Space" -> code <> "KeyR" -> keydown false code now w = w)
    /\ (forall onInput : bool,
          let w' := keydown onInput code now w in
          inputFocus (ui w') = inputFocus (ui w)
          /\ inputShort (ui w') = inputShort (ui w)
          /\ inputLong (ui w') = inputLong (ui w)
          /\ inputCycles (ui w') = inputCycles (ui w)).
Proof.
  intros code now w.
  split; [reflexivity |]. split; [reflexivity |]. split; [reflexivity |].
  split.
  - intros N1 N2. unfold keydown.
    destruct (String.eqb_spec code "Space"); [contradiction |].
    destruct (String.eqb_spec code "KeyR"); [contradiction |]. reflexivity.
  - intros onInput. cbv zeta. unfold keydown.
    destruct onInput; [now repeat split |].
    destruct (String.eqb code "Space"), (String.eqb code "KeyR").
    + destruct (reset_fields (toggle now w)) as (A & B & C & D).
      destruct (toggle_fields now w) as (A' & B' & C' & D').
      rewrite A, B, C, D. now repeat split.
    + apply toggle_fields.
    + apply reset_fields.
    + now repeat split.
Qed.

(** The letter x pressed on the page. *)
Lemma X15_witness : keydown false "KeyX" 0 (load page25) = load page25.
Proof.
  exact (proj1 (proj2 (proj2 (proj2
           (X15_keydown "KeyX" 0 (load page25)))))
           ltac:(discriminate) ltac:(discriminate)).
Defined.

End Keys.

(** ** Cycle lengths *)

Section CycleLengths.

Lemma Qtrunc_comp (x y : Q) : (x == y)%Q -> Qtrunc x = Qtrunc y.
Proof.
  intros E. unfold Qtrunc.
  assert (B : Qle_bool 0 x = Qle_bool 0 y).
  { destruct (Qle_bool 0 y) eqn:Y.
    - apply Qle_bool_iff. apply Qle_bool_iff in Y. now rewrite E.
    - apply not_true_is_false. intros X. apply Qle_bool_iff in X.
      rewrite E in X. apply Qle_bool_iff in X. congruence. }
  rewrite B. destruct (Qle_bool 0 y).
  - now rewrite E.
  - unfold Qceiling. now rewrite E.
Qed.

Lemma rem_of_Z_neg (a : Z) (p : positive) :
  eqb (rem (of_Z a) (of_Z (Zneg p))) (of_Z 0) = (a mod Zpos p =? 0).
Proof.
  unfold rem, of_Z.
  assert (NZ : Qeq_bool (inject_Z (Zneg p)) 0 = false) by reflexivity.
  rewrite NZ.
  assert (D : (inject_Z a / inject_Z (Zneg p)
               == inject_Z (- a) / inject_Z (Zpos p))%Q).
  { rewrite inject_Z_opp.
    change (inject_Z (Zneg p)) with (- inject_Z (Zpos p))%Q.
    field. discriminate. }
  rewrite (Qtrunc_comp _ _ D), Qtrunc_div. unfold eqb.
  assert (E : (inject_Z a
               - inject_Z (Zneg p) * inject_Z (Z.quot (- a) (Zpos p))
               == inject_Z (- Z.rem (- a) (Zpos p)))%Q).
  { unfold Qminus.
    rewrite <- inject_Z_mult, <- inject_Z_opp, <- inject_Z_plus.
    apply inject_Z_injective.
    pose proof (Z.quot_rem' (- a) (Zpos p)). lia. }
  assert (M : a mod Zpos p = 0 <-> Z.rem (- a) (Zpos p) = 0).
  { rewrite Z.mod_divide by lia. rewrite Z.rem_divide by lia.
    split; intros H; [now apply Z.divide_opp_r |].
    apply Z.divide_opp_r in H. now rewrite Z.opp_involutive in H. }
  destruct (Z.eqb_spec (a mod Zpos p) 0) as [H | H].
  - apply Qeq_bool_iff. rewrite E. apply M in H. now rewrite H.
  - apply not_true_is_false. intros T. apply Qeq_bool_iff in T.
    rewrite E in T. change 0%Q with (inject_Z 0) in T.
    apply (proj1 (inject_Z_injective _ _)) in T.
    apply H, M. lia.
Qed.

(** X16.  With a whole number other than zero in the cycles field,
    positive or negative, a FOCUS completion goes to LONG BREAK exactly
    when the new cycle count is a multiple of it, and to SHORT BREAK
    otherwise; with 1 (or -1) every break is long.  A field that reads as
    zero or as no number counts as 4. *)
Theorem X16_cycle_lengths :
  forall (w : World) (now : Q),
    phase (state w) = FOCUS ->
    (forall n : Z,
       Number (inputCycles (ui w)) = of_Z n -> n <> 0 ->
       phase (state (nextPhase now w))
       = (if (cycleCount (state w) + 1) mod Z.abs n =? 0
          then LONG else SHORT)
       /\ (Z.abs n = 1 -> phase (state (nextPhase now w)) = LONG))
    /\ (truthy (Number (inputCycles (ui w))) = false ->
        phase (state (nextPhase now w))
        = (if (cycleCount (state w) + 1) mod 4 =? 0 then LONG else SHORT)).
Proof.
  intros w now P.
  destruct (nextPhase_phase_count now w) as [_ H]. rewrite P in H.
  destruct H as [_ H]. rewrite H. unfold cyclesBeforeLong. split.
  - intros n E NZ. rewrite E, (or_else_whole n _ NZ).
    assert (R : eqb (rem (of_Z (cycleCount (state w) + 1)) (of_Z n))
                    (of_Z 0)
                = ((cycleCount (state w) + 1) mod Z.abs n =? 0)).
    { destruct n as [| p | p]; [contradiction | apply rem_of_Z |
                                apply rem_of_Z_neg]. }
    rewrite R. split; [reflexivity |].
    intros A. rewrite A, Z.mod_1_r. reflexivity.
  - intros T. unfold or_else. rewrite T. now rewrite rem_of_Z.
Qed.

(** -4 in the cycles field at count 3: the long break. *)
Lemma X16_witness :
  let w := with_state (set_cycleCount 3)
             (setValue Cycles "-4" (load page25)) in
  phase (state (nextPhase 0 w)) = LONG.
Proof.
  exact (proj1 (proj1 (X16_cycle_lengths
           (with_state (set_cycleCount 3)
              (setValue Cycles "-4" (load page25))) 0
           ltac:(reflexivity))
           (-4) ltac:(reflexivity) ltac:(discriminate))).
Defined.

End CycleLengths.

(** ** Settings in the exact ratio *)

Section ExactRatio.

Lemma edit_Short_long (w : World) (text : string) :
  inputLong (ui (edit Short text w))
  = ToString (longFromShort (or_else (Number text) (of_Z 5))).
Proof.
  unfold edit, onChange, onShortChange, setValue.
  set (v := with_ui (set_inputLong _) _).
  destruct (resetUnlessRunning_ui v) as (_ & _ & C & _). now rewrite C.
Qed.

Lemma edit_Long_short (w : World) (text : string) :
  inputShort (ui (edit Long text w))
  = ToString (shortFromLong (or_else (Number text) (of_Z 15))).
Proof.
  unfold edit, onChange, onLongChange, setValue.
  set (v := with_ui (set_inputShort _) _).
  destruct (resetUnlessRunning_ui v) as (_ & B & _). now rewrite B.
Qed.

Lemma Qfloor_third (z : Z) :
  Qfloor (inject_Z z / 3 + (1 # 2)) = (2 * z + 3) / 6.
Proof.
  unfold Qfloor, Qplus, Qdiv, Qmult, Qinv, inject_Z.
  cbn -[Z.mul Z.add Z.div]. f_equal. lia.
Qed.

Lemma longFromShort_of_Z (s : Z) :
  longFromShort (of_Z s) = of_Z (Z.max 5 (Z.min 9000 (s * 3))).
Proof. unfold longFromShort, LIMIT. apply clamp_of_Z. Qed.

Lemma shortFromLong_of_Z (l : Z) :
  shortFromLong (of_Z l)
  = of_Z (Z.max 1 (Z.min 9000 (Qfloor (inject_Z l / 3 + (1 # 2))))).
Proof. unfold shortFromLong, LIMIT. apply clamp_of_Z. Qed.

(** The six derivations on the triple [(5k, k, 3k)]. *)
Lemma exact_ratio (k : Z) :
  2 <= k <= 1800 ->
  shortFromFocus (of_Z (5 * k)) = of_Z k
  /\ longFromFocus (of_Z (5 * k)) = of_Z (3 * k)
  /\ focusFromShort (of_Z k) = of_Z (5 * k)
  /\ longFromShort (of_Z k) = of_Z (3 * k)
  /\ focusFromLong (of_Z (3 * k)) = of_Z (5 * k)
  /\ shortFromLong (of_Z (3 * k)) = of_Z k.
Proof.
  intros H.
  assert (A : (2 * (5 * k) + 5) / 10 = k)
    by (symmetry; apply (Z.div_unique _ 10 k 5); lia).
  assert (B : (6 * (5 * k) + 5) / 10 = 3 * k)
    by (symmetry; apply (Z.div_unique _ 10 (3 * k) 5); lia).
  assert (C : (10 * (3 * k) + 3) / 6 = 5 * k)
    by (symmetry; apply (Z.div_unique _ 6 (5 * k) 3); lia).
  assert (D : (2 * (3 * k) + 3) / 6 = k)
    by (symmetry; apply (Z.div_unique _ 6 k 3); lia).
  unfold of_Z at 1 3.
  rewrite shortFromFocus_Fin, longFromFocus_Fin, focusFromShort_of_Z,
    longFromShort_of_Z, focusFromLong_of_Z, shortFromLong_of_Z.
  rewrite Qfloor_fifth, Qfloor_three_fifths, Qfloor_five_thirds,
    Qfloor_third, A, B, C, D.
  repeat split; f_equal; lia.
Qed.

(** X17.  Settings in the exact ratio 5 : 1 : 3 are a fixed point of the
    synchronisation.  When the focus field is committed with [5k]
    minutes, [k] a whole number from 2 to 1800, the short field becomes
    [k] and the long field [3k]; committing the short field as it then
    stands gives back focus [5k] and long [3k], and committing the long
    field gives back focus [5k] and short [k]. *)
Theorem X17_exact_ratio_fixed_point :
  forall (w : World) (text : string) (k : Z),
    2 <= k <= 1800 ->
    Number text = of_Z (5 * k) ->
    let w1 := edit Focus text w in
    let w2 := edit Short (inputShort (ui w1)) w1 in
    let w3 := edit Long (inputLong (ui w1)) w1 in
    (Number (inputShort (ui w1)) = of_Z k
     /\ Number (inputLong (ui w1)) = of_Z (3 * k))
    /\ (Number (inputFocus (ui w2)) = of_Z (5 * k)
        /\ Number (inputLong (ui w2)) = of_Z (3 * k))
    /\ (Number (inputFocus (ui w3)) = of_Z (5 * k)
        /\ Number (inputShort (ui w3)) = of_Z k).
Proof.
  intros w text k H E w1 w2 w3.
  destruct (exact_ratio k H) as (R1 & R2 & R3 & R4 & R5 & R6).
  destruct (edit_Focus_derived w text) as [S1 L1]. fold w1 in S1, L1.
  rewrite E, or_else_whole in S1, L1 by lia. rewrite R1 in S1.
  rewrite R2 in L1.
  assert (N1 : Number (inputShort (ui w1)) = of_Z k)
    by (rewrite S1; apply (whole_in_field k 1); lia).
  assert (N2 : Number (inputLong (ui w1)) = of_Z (3 * k))
    by (rewrite L1; apply (whole_in_field _ 5); lia).
  split; [now split |]. split.
  - unfold w2. rewrite edit_Short_focus, edit_Short_long, N1.
    rewrite or_else_whole by lia. rewrite R3, R4.
    split; apply (whole_in_field _ 5); lia.
  - unfold w3. rewrite edit_Long_focus, edit_Long_short, N2.
    rewrite or_else_whole by lia. rewrite R5, R6.
    split; [apply (whole_in_field _ 5) | apply (whole_in_field _ 1)]; lia.
Qed.

(** 50 : 10 : 30. *)
Lemma X17_witness :
  let w1 := edit Focus "50" (load page25) in
  Number (inputShort (ui w1)) = of_Z 10
  /\ Number (inputFocus (ui (edit Short (inputShort (ui w1)) w1)))
     = of_Z 50.
Proof.
  pose proof (X17_exact_ratio_fixed_point (load page25) "50" 10
                ltac:(lia) ltac:(reflexivity)) as H.
  exact (conj (proj1 (proj1 H)) (proj1 (proj1 (proj2 H)))).
Defined.

End ExactRatio.
